(** * swiftdashboard: attendance, ranking and department aggregation

    A shallow embedding of the client-side aggregation code of the
    dashboard (TypeScript, Angular components and one service) together
    with the properties its specification states about it.

    Layout: the JavaScript values the code manipulates ([JS]), then one
    module per source class ([Attendance], [AttendanceService], [Ranking],
    [Staffprofile], [AdminDashboard]), then the theorems. *)

From Stdlib Require Import ZArith QArith Qround Qminmax Lqa.
From Stdlib Require Import String Ascii DecimalString.
From Stdlib Require DecimalZ.
From Stdlib Require Import List Bool Lia Permutation Sorted.
From stdpp Require Import gmap strings list fin_maps.

Local Open Scope string_scope.
Local Open Scope Z_scope.

(* ===================================================================== *)
(** * JavaScript values *)
(* ===================================================================== *)

Module JS.

(** ** Strings

    A JavaScript string is modelled by [string] (a sequence of 8-bit
    characters).  [toLowerCase] maps the ASCII capitals to their small
    letters and leaves every other character alone. *)

Definition lower_ascii (c : ascii) : ascii :=
  let n := nat_of_ascii c in
  if ((65 <=? n) && (n <=? 90))%nat then ascii_of_nat (n + 32) else c.

Fixpoint toLowerCase (s : string) : string :=
  match s with
  | EmptyString => EmptyString
  | String c s' => String (lower_ascii c) (toLowerCase s')
  end.

(** Truthiness of a possibly missing string: [null], [undefined] and the
    empty string are falsy. *)
Definition truthy_string (o : option string) : bool :=
  match o with
  | None => false
  | Some s => negb (s =? "")%string
  end.

(** [o || d] for a possibly missing string [o]. *)
Definition or_string (o : option string) (d : string) : string :=
  match o with
  | Some s => if (s =? "")%string then d else s
  | None => d
  end.

(** ** Numbers

    A JavaScript number is [NaN] or a finite value; finite values are
    modelled by rationals with exact arithmetic (the infinities and the
    rounding of binary floating point are not represented).  The
    divisors of the modelled code are non-zero literals. *)

Inductive number : Type :=
| NaN : number
| Num (q : Q) : number.

Definition isNaN (n : number) : bool :=
  match n with NaN => true | Num _ => false end.

Definition lift2 (f : Q -> Q -> Q) (a b : number) : number :=
  match a, b with
  | Num x, Num y => Num (f x y)
  | _, _ => NaN
  end.

Definition Qltb (x y : Q) : bool := negb (Qle_bool y x).

(** Truncation toward zero, and the remainder [a % b], which takes the
    sign of the dividend. *)
Definition Qtrunc (q : Q) : Z :=
  if Qltb q 0 then Qceiling q else Qfloor q.

Definition Qrem (a b : Q) : Q := (a - b * inject_Z (Qtrunc (a / b)))%Q.

Definition add : number -> number -> number := lift2 Qplus.
Definition sub : number -> number -> number := lift2 Qminus.
Definition mul : number -> number -> number := lift2 Qmult.
Definition div : number -> number -> number := lift2 Qdiv.
Definition rem : number -> number -> number := lift2 Qrem.

(** [a < b]: false as soon as one side is [NaN]. *)
Definition lt (a b : number) : bool :=
  match a, b with
  | Num x, Num y => Qltb x y
  | _, _ => false
  end.

Definition Math_floor (n : number) : number :=
  match n with
  | NaN => NaN
  | Num q => Num (inject_Z (Qfloor q))
  end.

(** [Math.round] rounds half-way cases up. *)
Definition Qround (q : Q) : Z := Qfloor (q + (1 # 2))%Q.

Definition Math_min (a b : number) : number := lift2 Qmin a b.

(** [n || d] on finite numbers: [0] is falsy. *)
Definition Qor (q d : Q) : Q := if Qeq_bool q 0 then d else q.

(** Equality of numbers up to the representation of a rational. *)
Definition number_eq (a b : number) : Prop :=
  match a, b with
  | NaN, NaN => True
  | Num x, Num y => (x == y)%Q
  | _, _ => False
  end.

(** Order of numbers: [NaN] is comparable to nothing. *)
Definition number_le (a b : number) : Prop :=
  match a, b with
  | Num x, Num y => (x <= y)%Q
  | _, _ => False
  end.

(** Decimal rendering of an integer inside a template literal. *)
Definition string_of_Z (z : Z) : string :=
  NilZero.string_of_int (Z.to_int z).

(** ** Dates

    [new Date(s).getTime()] is the parsed time in milliseconds since the
    epoch, or [NaN] when [s] does not parse (an invalid date).  The
    parser itself belongs to the runtime; the code is modelled over any
    parser [Date_parse], [None] standing for an invalid date. *)

Definition getTime (Date_parse : string -> option Z) (s : string) : number :=
  match Date_parse s with
  | Some ms => Num (inject_Z ms)
  | None => NaN
  end.

(** A parser for the complete UTC form [YYYY-MM-DDTHH:mm:ssZ] of the
    ECMAScript date-time format, used to run the code on examples. *)

Definition digit (c : ascii) : option Z :=
  let n := nat_of_ascii c in
  if ((48 <=? n) && (n <=? 57))%nat then Some (Z.of_nat (n - 48)) else None.

Fixpoint digits (acc : Z) (cs : list ascii) : option Z :=
  match cs with
  | nil => Some acc
  | c :: cs' =>
      match digit c with
      | Some d => digits (10 * acc + d) cs'
      | None => None
      end
  end.

(** Days between 1970-01-01 and the given civil date. *)
Definition days_from_civil (y m d : Z) : Z :=
  let y' := if m <=? 2 then y - 1 else y in
  let era := y' / 400 in
  let yoe := y' - era * 400 in
  let mp := if m <=? 2 then m + 9 else m - 3 in
  let doy := (153 * mp + 2) / 5 + d - 1 in
  let doe := yoe * 365 + yoe / 4 - yoe / 100 + doy in
  era * 146097 + doe - 719468.

Definition in_range (lo x hi : Z) : bool := (lo <=? x) && (x <=? hi).

Definition iso_parse (s : string) : option Z :=
  match list_ascii_of_string s with
  | [y1; y2; y3; y4; "-"; m1; m2; "-"; d1; d2; "T";
     h1; h2; ":"; n1; n2; ":"; s1; s2; "Z"]%char =>
      match digits 0 [y1; y2; y3; y4], digits 0 [m1; m2], digits 0 [d1; d2],
            digits 0 [h1; h2], digits 0 [n1; n2], digits 0 [s1; s2] with
      | Some y, Some m, Some d, Some h, Some n, Some sec =>
          if in_range 1 m 12 && in_range 1 d 31 && in_range 0 h 23
             && in_range 0 n 59 && in_range 0 sec 59
          then Some ((((days_from_civil y m d * 24 + h) * 60 + n) * 60 + sec) * 1000)
          else None
      | _, _, _, _, _, _ => None
      end
  | _ => None
  end.

(** ** Arrays

    The contents of an array are a list.  [Array.prototype.sort] with a
    comparator is stable and orders [a] before [b] when [cmp a b < 0];
    any such sort yields the same result for a consistent comparator,
    modelled here by insertion from the right. *)

Section Arrays.
Context {A : Type}.
Variable cmp : A -> A -> Z.

Fixpoint sort_insert (x : A) (l : list A) : list A :=
  match l with
  | nil => x :: nil
  | y :: l' => if cmp x y <=? 0 then x :: y :: l' else y :: sort_insert x l'
  end.

Definition Array_sort (l : list A) : list A :=
  fold_right sort_insert nil l.

(** [l.slice(start, stop)] for non-negative indices. *)
Definition Array_slice (start stop : nat) (l : list A) : list A :=
  firstn (stop - start) (skipn start l).
End Arrays.

(** ** Maps

    A [Map] with string keys keeps its entries in insertion order, which
    [forEach] follows: an association list with one entry per key, where
    [set] on a present key replaces the value in place and [set] on a new
    key appends. *)

Section Maps.
Context {V : Type}.

Fixpoint Map_get (k : string) (m : list (string * V)) : option V :=
  match m with
  | nil => None
  | (k', v) :: m' => if (k =? k')%string then Some v else Map_get k m'
  end.

Fixpoint Map_set (k : string) (v : V) (m : list (string * V))
  : list (string * V) :=
  match m with
  | nil => (k, v) :: nil
  | (k', v') :: m' =>
      if (k =? k')%string then (k, v) :: m' else (k', v') :: Map_set k v m'
  end.
End Maps.

(** [o || d] for a possibly missing finite number. *)
Definition or_Q (o : option Q) (d : Q) : Q :=
  match o with
  | Some q => Qor q d
  | None => d
  end.

Definition or_Z (o : option Z) (d : Z) : Z :=
  match o with
  | Some n => if n =? 0 then d else n
  | None => d
  end.

(** ** More string methods *)

(** [s.includes(sub)]: [sub] occurs somewhere in [s]. *)
Fixpoint includes (s sub : string) : bool :=
  if String.prefix sub s then true
  else match s with
       | EmptyString => false
       | String _ s' => includes s' sub
       end.

(** [s.padStart(n, "0")]. *)
Definition padStart0 (n : nat) (s : string) : string :=
  string_of_list_ascii (repeat "0"%char (n - String.length s)) ++ s.

(** A value read from an array by index inside a template literal. *)
Definition template_opt (o : option string) : string :=
  match o with
  | Some s => s
  | None => "undefined"
  end.

(** [for (let i = start; i <= stop; i++) pages.push(i)]. *)
Fixpoint countFrom (start : Z) (n : nat) : list Z :=
  match n with
  | O => nil
  | S n' => start :: countFrom (start + 1) n'
  end.

Definition range (start stop : Z) : list Z :=
  countFrom start (Z.to_nat (stop - start + 1)).

End JS.

(* ===================================================================== *)
(** * The attendance page (class [Attendance]) *)
(* ===================================================================== *)

Module Attendance.
Import JS.

Record User := {
  user_id : string;
  firstName : string;
  lastName : string;
  employeeId : string
}.

Record Break := {
  break_id : string;
  startTime : string;
  endTime : option string;
  break_type : string
}.

(** [status] is declared a string, and read with [?.]: it may be
    missing on a record delivered by the server. *)
Record AttendanceRecord := {
  record_id : string;
  date : string;
  checkIn : option string;
  checkOut : option string;
  status : option string;
  isSeated : bool;
  currentBreak : option Break;
  breaks : list Break;
  user : User
}.

Record PaginatedData := {
  page : Z;
  count : Z;
  totalPages : Z;
  totalItems : option Z;
  pageData : list AttendanceRecord
}.

Record AttendanceStats := {
  totalPresent : Z;
  totalAbsent : Z;
  totalLate : Z;
  totalLeave : Z;
  totalOnTime : Z;
  totalStaff : Z
}.

Inductive Period := Day | Week | Month | Quarter | Year.

Definition Period_eqb (p q : Period) : bool :=
  match p, q with
  | Day, Day | Week, Week | Month, Month | Quarter, Quarter | Year, Year => true
  | _, _ => false
  end.

(** The fields of the component that [calculateStats] reads and writes. *)
Record Component := {
  attendanceRecords : list AttendanceRecord;
  paginationData : option PaginatedData;
  attendanceStats : AttendanceStats;
  selectedPeriod : Period
}.

Definition zeroStats : AttendanceStats :=
  {| totalPresent := 0; totalAbsent := 0; totalLate := 0;
     totalLeave := 0; totalOnTime := 0; totalStaff := 0 |}.

(** The body of the [forEach] of [calculateStats]: one record. *)
Definition countStatus (stats : AttendanceStats) (record : AttendanceRecord)
  : AttendanceStats :=
  let status := or_string (option_map toLowerCase (status record)) "absent" in
  if (status =? "present")%string then
    {| totalPresent := totalPresent stats + 1; totalAbsent := totalAbsent stats;
       totalLate := totalLate stats; totalLeave := totalLeave stats;
       totalOnTime := totalOnTime stats; totalStaff := totalStaff stats |}
  else if (status =? "absent")%string then
    {| totalPresent := totalPresent stats; totalAbsent := totalAbsent stats + 1;
       totalLate := totalLate stats; totalLeave := totalLeave stats;
       totalOnTime := totalOnTime stats; totalStaff := totalStaff stats |}
  else if (status =? "late")%string then
    {| totalPresent := totalPresent stats; totalAbsent := totalAbsent stats;
       totalLate := totalLate stats + 1; totalLeave := totalLeave stats;
       totalOnTime := totalOnTime stats; totalStaff := totalStaff stats |}
  else if (status =? "leave")%string then
    {| totalPresent := totalPresent stats; totalAbsent := totalAbsent stats;
       totalLate := totalLate stats; totalLeave := totalLeave stats + 1;
       totalOnTime := totalOnTime stats; totalStaff := totalStaff stats |}
  else if (status =? "ontime")%string then
    {| totalPresent := totalPresent stats; totalAbsent := totalAbsent stats;
       totalLate := totalLate stats; totalLeave := totalLeave stats;
       totalOnTime := totalOnTime stats + 1; totalStaff := totalStaff stats |}
  else stats.

Definition setTotalStaff (stats : AttendanceStats) (n : Z) : AttendanceStats :=
  {| totalPresent := totalPresent stats; totalAbsent := totalAbsent stats;
     totalLate := totalLate stats; totalLeave := totalLeave stats;
     totalOnTime := totalOnTime stats; totalStaff := n |}.

(** [new Set(records.map(r => r.user.id))]. *)
Definition uniqueUsers (records : list AttendanceRecord) : gset string :=
  list_to_set (map (fun r => user_id (user r)) records).

(** [this.paginationData?.totalItems || this.attendanceRecords.length]. *)
Definition totalItemsOrLength (p : option PaginatedData)
  (records : list AttendanceRecord) : Z :=
  match p with
  | Some pd =>
      match totalItems pd with
      | Some n => if n =? 0 then Z.of_nat (length records) else n
      | None => Z.of_nat (length records)
      end
  | None => Z.of_nat (length records)
  end.

Definition calculateStats (c : Component) : Component :=
  let counted := fold_left countStatus (attendanceRecords c) zeroStats in
  let stats :=
    if Period_eqb (selectedPeriod c) Day then
      setTotalStaff counted (Z.of_nat (size (uniqueUsers (attendanceRecords c))))
    else
      setTotalStaff counted
        (totalItemsOrLength (paginationData c) (attendanceRecords c)) in
  {| attendanceRecords := attendanceRecords c;
     paginationData := paginationData c;
     attendanceStats := stats;
     selectedPeriod := selectedPeriod c |}.

Section WithDate.
Variable Date_parse : string -> option Z.

(** [getWorkingHours]: both timestamps are finite once the [isNaN]
    guard is passed, and the floored values are integers. *)
Definition getWorkingHours (checkIn checkOut : option string) : string :=
  match checkIn, checkOut with
  | Some ci, Some co =>
      if (ci =? "")%string || (co =? "")%string then "0H 0M" else
      match getTime Date_parse ci, getTime Date_parse co with
      | Num start, Num stop =>
          let diffMs := (stop - start)%Q in
          if Qltb diffMs 0 then "0H 0M" else
          let diffHours := Qfloor (diffMs / (1000 * 60 * 60)) in
          let diffMinutes :=
            Qfloor (Qrem diffMs (1000 * 60 * 60) / (1000 * 60)) in
          string_of_Z diffHours ++ "H " ++ string_of_Z diffMinutes ++ "M"
      | _, _ => "0H 0M"
      end
  | _, _ => "0H 0M"
  end.

Definition getAttendancePercentage (checkIn checkOut : option string) : number :=
  match checkIn, checkOut with
  | Some ci, Some co =>
      if (ci =? "")%string || (co =? "")%string then Num 0 else
      match getTime Date_parse ci, getTime Date_parse co with
      | Num start, Num stop =>
          let diffMs := (stop - start)%Q in
          if Qltb diffMs 0 then Num 0 else
          let diffHours := (diffMs / (1000 * 60 * 60))%Q in
          let percentage := inject_Z (Qround (diffHours / 8 * 100)) in
          Num (Qmin percentage 100)
      | _, _ => Num 0
      end
  | _, _ => Num 0
  end.

Definition getAttendancePoints (checkIn checkOut : option string) : number :=
  match checkIn, checkOut with
  | Some ci, Some co =>
      if (ci =? "")%string || (co =? "")%string then Num 0 else
      match getTime Date_parse ci, getTime Date_parse co with
      | Num start, Num stop =>
          let diffMs := (stop - start)%Q in
          if Qltb diffMs 0 then Num 0 else
          let diffHours := inject_Z (Qfloor (diffMs / (1000 * 60 * 60))) in
          let points := (diffHours * 40)%Q in
          Num (Qmin points 320)
      | _, _ => Num 0
      end
  | _, _ => Num 0
  end.
End WithDate.


Definition getStatusBadgeClass (status : option string) : string :=
  match option_map toLowerCase status with
  | Some s =>
      if (s =? "present")%string then "badge-success"
      else if (s =? "ontime")%string then "badge-success"
      else if (s =? "absent")%string then "badge-danger"
      else if (s =? "late")%string then "badge-warning"
      else if (s =? "leave")%string then "badge-info"
      else "badge-secondary"
  | None => "badge-secondary"
  end.

Record BreakStatus := {
  bs_type : string;
  bs_icon : string
}.

Definition getBreakStatus (record : AttendanceRecord) : option BreakStatus :=
  match (if isSeated record then None else currentBreak record) with
  | Some b =>
      let breakType := or_string (Some (toLowerCase (break_type b))) "break" in
      if includes breakType "tea" then
        Some {| bs_type := "Tea Break"; bs_icon := "bi-cup-hot-fill text-warning" |}
      else if includes breakType "lunch" then
        Some {| bs_type := "Lunch Break"; bs_icon := "bi-egg-fried text-warning" |}
      else
        Some {| bs_type := "Break"; bs_icon := "bi-pause-circle text-info" |}
  | None =>
      if isSeated record && truthy_string (checkIn record) then
        Some {| bs_type := "On Seat"; bs_icon := "bi-laptop text-primary" |}
      else None
  end.

(** "Get total present count (including OnTime)". *)
Definition getTotalPresent (c : Component) : Z :=
  totalPresent (attendanceStats c) + totalOnTime (attendanceStats c).

(** [getProgressBarClass]: a comparison with [NaN] is false. *)
Definition getProgressBarClass (percentage : number) : string :=
  match percentage with
  | Num p =>
      if Qle_bool 90 p then "bg-success"
      else if Qle_bool 70 p then "bg-warning"
      else "bg-danger"
  | NaN => "bg-danger"
  end.

(** ** Loading a page of records

    [loadAttendanceData] with the outcome of the request as argument:
    the state when the [next] or the [error] callback has run. *)

Record ApiResponse := {
  ok : bool;
  data : option PaginatedData;
  response_error : option string
}.

(** An error with its [status], or a response. *)
Inductive HttpResult :=
| HttpError (status : option Z)
| HttpNext (response : ApiResponse).

(** The component with the fields [loadAttendanceData] writes. *)
Record Page := {
  component : Component;
  currentPage : Z;
  loading : bool;
  error : option string
}.

(** Calls on the authentication service. *)
Inductive Call := Logout.

(** [err.status === n]. *)
Definition statusIs (status : option Z) (n : Z) : bool :=
  match status with
  | Some s => s =? n
  | None => false
  end.

Definition loadAttendanceData (page : Z) (result : HttpResult) (p : Page)
  : Page * list Call :=
  match result with
  | HttpNext response =>
      match ok response, data response with
      | true, Some d =>
          let c :=
            calculateStats
              {| attendanceRecords := pageData d;
                 paginationData := Some d;
                 attendanceStats := attendanceStats (component p);
                 selectedPeriod := selectedPeriod (component p) |} in
          ({| component := c; currentPage := page; loading := false;
              error := None |}, nil)
      | _, _ =>
          ({| component := component p; currentPage := page; loading := false;
              error := Some (or_string (response_error response)
                               "Failed to load attendance data") |}, nil)
      end
  | HttpError status =>
      let failed (message : string) :=
        {| component := component p; currentPage := page; loading := false;
           error := Some message |} in
      if statusIs status 401 then
        (failed "Session expired. Please login again.", Logout :: nil)
      else if statusIs status 403 then
        (failed "You do not have permission to view this data.", nil)
      else if statusIs status 0 then
        (failed "Unable to connect to server. Please check your internet connection.",
         nil)
      else
        (failed "Failed to load attendance data. Please try again.", nil)
  end.

Definition changePeriod (period : Period) (result : HttpResult) (p : Page)
  : Page * list Call :=
  loadAttendanceData 1 result
    {| component :=
         {| attendanceRecords := attendanceRecords (component p);
            paginationData := paginationData (component p);
            attendanceStats := attendanceStats (component p);
            selectedPeriod := period |};
       currentPage := currentPage p; loading := loading p; error := error p |}.

Definition loadPage (page : Z) (result : HttpResult) (p : Page)
  : Page * list Call :=
  if (1 <=? page)
     && match paginationData (component p) with
        | Some pd => page <=? totalPages pd
        | None => false
        end
  then loadAttendanceData page result p
  else (p, nil).

Definition refreshData (result : HttpResult) (p : Page) : Page * list Call :=
  loadAttendanceData (currentPage p) result p.

End Attendance.

(* ===================================================================== *)
(** * The attendance service (class [AttendanceService]) *)
(* ===================================================================== *)

Module AttendanceService.
Import JS.

Record WorkingHours := {
  hours : number;
  minutes : number;
  total : number
}.

Definition zeroDuration : WorkingHours :=
  {| hours := Num 0; minutes := Num 0; total := Num 0 |}.

Section WithDate.
Variable Date_parse : string -> option Z.

(** The parameters are declared strings; the guard [!checkIn ||
    !checkOut] also covers [null] and the empty string. *)
Definition calculateWorkingHours (checkIn checkOut : option string)
  : WorkingHours :=
  match checkIn, checkOut with
  | Some ci, Some co =>
      if (ci =? "")%string || (co =? "")%string then zeroDuration else
      let start := getTime Date_parse ci in
      let stop := getTime Date_parse co in
      let diffMs := sub stop start in
      if lt diffMs (Num 0) then zeroDuration else
      let hours := Math_floor (div diffMs (Num (1000 * 60 * 60))) in
      let minutes :=
        Math_floor (div (rem diffMs (Num (1000 * 60 * 60))) (Num (1000 * 60))) in
      let total := add hours (div minutes (Num 60)) in
      {| hours := hours; minutes := minutes; total := total |}
  | _, _ => zeroDuration
  end.

(** [pointsPerHour] defaults to 40 when the argument is omitted. *)
Definition calculateAttendancePoints (checkIn checkOut : option string)
  (pointsPerHour : option number) : number :=
  let pointsPerHour :=
    match pointsPerHour with Some p => p | None => Num 40 end in
  let hours := hours (calculateWorkingHours checkIn checkOut) in
  Math_min (mul hours pointsPerHour) (Num 320).
End WithDate.


(** The service's badge has no case for [ontime]. *)
Definition getStatusBadgeClass (status : option string) : string :=
  match option_map toLowerCase status with
  | Some s =>
      if (s =? "present")%string then "badge-success"
      else if (s =? "absent")%string then "badge-danger"
      else if (s =? "late")%string then "badge-warning"
      else if (s =? "leave")%string then "badge-info"
      else "badge-secondary"
  | None => "badge-secondary"
  end.

End AttendanceService.

(* ===================================================================== *)
(** * The ranking page (class [Ranking]) *)
(* ===================================================================== *)

Module Ranking.
Import JS.

Record Employee := {
  emp_id : string;
  firstName : string;
  lastName : string;
  department : string;
  monthlyPoint : Q;
  monthlyRank : Z;
  dailyPoint : Q;
  dailyRank : Z
}.

(** The comparator [(a, b) => a.monthlyRank - b.monthlyRank]. *)
Definition byMonthlyRank (a b : Employee) : Z := monthlyRank a - monthlyRank b.

(** ** The store

    Arrays are objects: the component and the response hold references
    into a store, [sort] rewrites the array it is called on and returns
    the same reference, [slice] allocates a new array. *)

Definition loc := positive.

Abbreviation heap := (gmap loc (list Employee)).

Definition M (A : Type) : Type := heap -> option (A * heap).

Definition ret {A : Type} (a : A) : M A := fun h => Some (a, h).

Definition bind {A B : Type} (m : M A) (k : A -> M B) : M B :=
  fun h => match m h with
           | Some (a, h') => k a h'
           | None => None
           end.

Notation "'do' x <- m ; k" := (bind m (fun x => k))
  (at level 10, x name, m at level 100, k at level 200).

(** [a.sort(cmp)]: fails on a dangling reference. *)
Definition sort (cmp : Employee -> Employee -> Z) (a : loc) : M loc :=
  fun h => match h !! a with
           | Some l => Some (a, <[a := Array_sort cmp l]> h)
           | None => None
           end.

(** [a.slice(start, stop)]. *)
Definition slice (start stop : nat) (a : loc) : M loc :=
  fun h => match h !! a with
           | Some l =>
               let b := fresh (dom h) in
               Some (b, <[b := Array_slice start stop l]> h)
           | None => None
           end.

Record PageData := {
  page : Z;
  count : Z;
  totalPages : Z;
  totalItems : Z;
  pageData : loc
}.

Record ApiResponse := {
  ok : bool;
  data : option PageData
}.

Inductive HttpResult :=
| HttpError : HttpResult
| HttpNext (response : ApiResponse) : HttpResult.

Record Component := {
  employees : loc;
  topThreeEmployees : loc;
  isLoading : bool;
  errorMessage : string
}.

(** [loadEmployeeRanking], with the outcome of the request as argument:
    the [next] and the [error] callback of the subscription. *)
Definition loadEmployeeRanking (result : HttpResult) (c : Component) : M Component :=
  match result with
  | HttpNext response =>
      match ok response, data response with
      | true, Some d =>
          let employees' := pageData d in
          do sorted <- sort byMonthlyRank employees';
          do top <- slice 0 3 sorted;
          ret {| employees := employees'; topThreeEmployees := top;
                 isLoading := false; errorMessage := "" |}
      | _, _ =>
          ret {| employees := employees c; topThreeEmployees := topThreeEmployees c;
                 isLoading := false; errorMessage := "" |}
      end
  | HttpError =>
      ret {| employees := employees c; topThreeEmployees := topThreeEmployees c;
             isLoading := false;
             errorMessage := "Failed to load employee ranking. Please try again." |}
  end.

Definition getRankBadgeClass (rank : Z) : string :=
  if rank =? 1 then "badge-success"
  else if rank =? 2 then "badge-primary"
  else if rank =? 3 then "badge-warning"
  else "badge-secondary".

Definition getRankLabel (rank : Z) : string :=
  if rank =? 1 then "1st"
  else if rank =? 2 then "2nd"
  else if rank =? 3 then "3rd"
  else string_of_Z rank ++ "th".



End Ranking.

(* ===================================================================== *)
(** * The staff profile page (class [Staffprofile]) *)
(* ===================================================================== *)

Module Staffprofile.

(** [rank] may be [undefined] or [null]; [%] is the remainder that takes
    the sign of the dividend. *)
Definition getDayRankSuffix (rank : option Z) : string :=
  match rank with
  | None => ""
  | Some rank =>
      if rank =? 0 then "" else
      let lastDigit := Z.rem rank 10 in
      let lastTwoDigits := Z.rem rank 100 in
      if (11 <=? lastTwoDigits) && (lastTwoDigits <=? 13) then "th"
      else if lastDigit =? 1 then "st"
      else if lastDigit =? 2 then "nd"
      else if lastDigit =? 3 then "rd"
      else "th"
  end.


(** ** Task pagination, attendance summary and statistics

    The fields of the component these methods read and write.  The
    numbers are finite; [pageSize] is never reassigned. *)

Definition pageSize : Z := 20.

Record DisplayAttendance := {
  day : string;
  short : string;
  clockIn : string;
  clockOut : string;
  hours : string;
  percentage : Z;
  da_status : string
}.

Record Stats := {
  st_totalTasks : Z;
  st_tasksCompleted : Z;
  st_overdueTasks : Z;
  st_inProgress : Z;
  st_absentDays : Z;
  st_performance : Z
}.

Record Component := {
  currentPage : Z;
  totalTasks : Z;
  isLoadingTasks : bool;
  attendance : list DisplayAttendance;
  weeklyPercentage : Z;
  stats : Stats
}.

(** [get totalPages()]: [Math.ceil(this.totalTasks / this.pageSize)]. *)
Definition totalPages (c : Component) : Z :=
  Qceiling (inject_Z (totalTasks c) / inject_Z pageSize).

(** [get paginationPages()]. *)
Definition paginationPages (c : Component) : list Z :=
  let maxVisible := 5 in
  let halfVisible := Qfloor (inject_Z maxVisible / 2) in
  let startPage := Z.max 1 (currentPage c - halfVisible) in
  let endPage := Z.min (totalPages c) (startPage + maxVisible - 1) in
  let startPage :=
    if endPage - startPage <? maxVisible - 1
    then Z.max 1 (endPage - maxVisible + 1)
    else startPage in
  JS.range startPage endPage.






Definition calculateStats (c : Component) : Component :=
  let absentDays :=
    Z.of_nat (length (List.filter
                        (fun a => (hours a =? "0h 00m")%string
                                  || (clockIn a =? "--:--")%string)
                        (attendance c))) in
  let completionRate :=
    if 0 <? st_totalTasks (stats c)
    then (inject_Z (st_tasksCompleted (stats c))
          / inject_Z (st_totalTasks (stats c)) * 100)%Q
    else 0%Q in
  let performance :=
    JS.Qround ((completionRate + inject_Z (weeklyPercentage c)) / 2) in
  {| currentPage := currentPage c; totalTasks := totalTasks c;
     isLoadingTasks := isLoadingTasks c; attendance := attendance c;
     weeklyPercentage := weeklyPercentage c;
     stats := {| st_totalTasks := st_totalTasks (stats c);
                 st_tasksCompleted := st_tasksCompleted (stats c);
                 st_overdueTasks := st_overdueTasks (stats c);
                 st_inProgress := st_inProgress (stats c);
                 st_absentDays := absentDays;
                 st_performance := performance |} |}.

End Staffprofile.

(* ===================================================================== *)
(** * The administrator dashboard (class [AdminDashboard]) *)
(* ===================================================================== *)

Module AdminDashboard.
Import JS.

Record Department := {
  dept_id : string;
  name : string;
  description : string;
  employeeCount : option Z
}.

(** An entry of the ranking as the server delivers it (typed [any] in
    the source): the fields read through [||] may be missing. *)
Record RankedEmployee := {
  emp_id : string;
  firstName : string;
  lastName : string;
  avatarUrl : option string;
  employeeId : string;
  job : option string;
  department : option string;
  monthlyPoint : option Q;
  monthlyRank : Z;
  dailyPoint : option Q;
  dailyRank : option Z;
  dailyAttendancePoint : option Q;
  monthlyAttendancePoint : option Q
}.

(** The view model [EmployeeRank] built by [loadEmployeeRanks]. *)
Record EmployeeRank := {
  er_id : string;
  er_firstName : string;
  er_lastName : string;
  er_avatarUrl : option string;
  er_employeeId : string;
  er_job : string;
  er_monthlyPoint : Z;
  er_monthlyRank : Z;
  er_dailyPoint : Q;
  er_dailyRank : Z;
  er_dailyAttendancePoint : Q;
  er_monthlyAttendancePoint : Q
}.

(** The two envelopes of a list response: [{pageData: [...]}] or a bare
    array; any other object carries no list. *)
Inductive ListPayload (A : Type) :=
| PageEnvelope (pageData : list A)
| PlainArray (items : list A)
| OtherObject.
Arguments PageEnvelope {A} pageData.
Arguments PlainArray {A} items.
Arguments OtherObject {A}.

Record ApiResponse (T : Type) := {
  ok : bool;
  data : option T
}.
Arguments ok {T} _.
Arguments data {T} _.

Inductive HttpResult (T : Type) :=
| HttpError
| HttpNext (response : ApiResponse T).
Arguments HttpError {T}.
Arguments HttpNext {T} response.

Definition byMonthlyRank (a b : RankedEmployee) : Z := monthlyRank a - monthlyRank b.

Definition toEmployeeRank (emp : RankedEmployee) : EmployeeRank :=
  {| er_id := emp_id emp;
     er_firstName := firstName emp;
     er_lastName := lastName emp;
     er_avatarUrl := avatarUrl emp;
     er_employeeId := employeeId emp;
     er_job := or_string (job emp) "Employee";
     er_monthlyPoint := or_Z (option_map Qround (monthlyPoint emp)) 0;
     er_monthlyRank := or_Z (Some (monthlyRank emp)) 0;
     er_dailyPoint := or_Q (dailyPoint emp) 0;
     er_dailyRank := or_Z (dailyRank emp) 0;
     er_dailyAttendancePoint := or_Q (dailyAttendancePoint emp) 0;
     er_monthlyAttendancePoint := or_Q (monthlyAttendancePoint emp) 0 |}.

(** [loadEmployeeRanks]: the [map] and [catchError] of the request. *)
Definition loadEmployeeRanks (result : HttpResult (ListPayload RankedEmployee))
  : list EmployeeRank :=
  match result with
  | HttpNext response =>
      match ok response, data response with
      | true, Some d =>
          let employees :=
            match d with
            | PageEnvelope pageData => pageData
            | PlainArray items => items
            | OtherObject => nil
            end in
          map toEmployeeRank
            (Array_slice 0 3 (Array_sort byMonthlyRank employees))
      | _, _ => nil
      end
  | HttpError => nil
  end.

(** ** Task statistics

    The statistics as the server may deliver them: every key may be
    missing from the object. *)

Record StatusCounts := {
  InProgress : option Z;
  Blocked : option Z;
  Completed : option Z;
  UnderReview : option Z;
  NotStarted : option Z;
  Overdue : option Z
}.

Record PriorityCounts := {
  Critical : option Z;
  High : option Z;
  Low : option Z;
  Medium : option Z
}.

Record Stats := {
  status : option StatusCounts;
  priority : option PriorityCounts
}.

Record TaskStats := {
  total : option Z;
  stats : option Stats
}.

Definition zeroTaskStats : TaskStats :=
  {| total := Some 0;
     stats := Some
       {| status := Some {| InProgress := Some 0; Blocked := Some 0;
                            Completed := Some 0; UnderReview := Some 0;
                            NotStarted := Some 0; Overdue := Some 0 |};
          priority := Some {| Critical := Some 0; High := Some 0;
                              Low := Some 0; Medium := Some 0 |} |} |}.

(** [loadTaskStats]: the [map] and [catchError] of the request. *)
Definition loadTaskStats (result : HttpResult TaskStats) : TaskStats :=
  match result with
  | HttpNext response =>
      match ok response, data response with
      | true, Some d => d
      | _, _ => zeroTaskStats
      end
  | HttpError => zeroTaskStats
  end.

(** ** Best department *)

Record Component := {
  departments : list Department;
  bestDepartment : string;
  bestDepartmentPoints : Z
}.

(** "Initialize all departments with 0 points". *)
Definition initDeptPoints (departments : list Department) : list (string * Q) :=
  fold_left (fun m dept => Map_set (name dept) 0%Q m) departments nil.

(** "Add up employee points per department": one employee; a missing
    or empty [department] is falsy. *)
Definition addEmployeePoints (m : list (string * Q)) (emp : RankedEmployee)
  : list (string * Q) :=
  match department emp with
  | Some dept =>
      if (dept =? "")%string then m else
      let current := or_Q (Map_get dept m) 0 in
      let points := or_Q (monthlyPoint emp) 0 in
      Map_set dept (current + points)%Q m
  | None => m
  end.

Definition deptPoints (departments : list Department)
  (rankedEmployees : list RankedEmployee) : list (string * Q) :=
  fold_left addEmployeePoints rankedEmployees (initDeptPoints departments).

(** The [forEach] over [deptPoints]: the first strictly greater total. *)
Definition maxPointsStep (acc : Q * string) (entry : string * Q) : Q * string :=
  let '(maxPoints, bestDept) := acc in
  let '(dept, points) := entry in
  if Qltb maxPoints points then (points, dept) else (maxPoints, bestDept).

Definition countEmployee (m : list (string * Z)) (emp : RankedEmployee)
  : list (string * Z) :=
  match department emp with
  | Some dept =>
      if (dept =? "")%string then m else
      Map_set dept (or_Z (Map_get dept m) 0 + 1) m
  | None => m
  end.

Definition deptEmployeeCounts (rankedEmployees : list RankedEmployee)
  : list (string * Z) :=
  fold_left countEmployee rankedEmployees nil.

(** The [forEach] over [deptEmployeeCounts]. *)
Definition maxCountStep (acc : Z * string) (entry : string * Z) : Z * string :=
  let '(maxCount, bestDept) := acc in
  let '(dept, count) := entry in
  if maxCount <? count then (count, dept) else (maxCount, bestDept).

Definition calculateBestDepartment (rankedEmployees : list RankedEmployee)
  (c : Component) : Component :=
  if (length rankedEmployees =? 0)%nat || (length (departments c) =? 0)%nat then
    {| departments := departments c; bestDepartment := "N/A";
       bestDepartmentPoints := 0 |}
  else
    let '(maxPoints, bestDept) :=
      fold_left maxPointsStep (deptPoints (departments c) rankedEmployees)
        (0%Q, "") in
    let bestDept :=
      if Qeq_bool maxPoints 0 && (0 <? length (departments c))%nat then
        snd (fold_left maxCountStep (deptEmployeeCounts rankedEmployees)
               (0, bestDept))
      else bestDept in
    {| departments := departments c;
       bestDepartment := or_string (Some bestDept) "N/A";
       bestDepartmentPoints := Qround maxPoints |}.

(** ** Requests for the lists *)

(** [loadDepartments] and [loadEmployees]: a bare array, else a page. *)
Definition loadDepartments (result : HttpResult (ListPayload Department))
  : list Department :=
  match result with
  | HttpNext response =>
      match ok response, data response with
      | true, Some (PlainArray items) => items
      | true, Some (PageEnvelope pageData) => pageData
      | _, _ => nil
      end
  | HttpError => nil
  end.

(** [loadAllRankedEmployees]: a page, else a bare array. *)
Definition loadAllRankedEmployees (result : HttpResult (ListPayload RankedEmployee))
  : list RankedEmployee :=
  match result with
  | HttpNext response =>
      match ok response, data response with
      | true, Some (PageEnvelope pageData) => pageData
      | true, Some (PlainArray items) => items
      | _, _ => nil
      end
  | HttpError => nil
  end.

(** ** Employees and attendance rows of the dashboard *)

(** An employee of the list; [deactivated] may be absent, and
    [monthlyAttendancePoint] is read through a cast to [any]. *)
Record Employee := {
  e_id : string;
  e_firstName : string;
  e_lastName : string;
  e_deactivated : option bool;
  e_monthlyAttendancePoint : option Q
}.

Record CurrentBreak := {
  cb_type : option string
}.

Record AttendanceRow := {
  ar_checkIn : option string;
  ar_checkOut : option string;
  ar_status : option string;
  ar_isSeated : bool;
  ar_currentBreak : option CurrentBreak
}.

Section WithDate.
Variable Date_parse : string -> option Z.

(** No statement of the [try] block throws. *)
Definition calculateWorkingHours (checkIn checkOut : option string) : string :=
  match checkIn, checkOut with
  | Some ci, Some co =>
      if (ci =? "")%string || (co =? "")%string then "0h 0m" else
      match getTime Date_parse ci, getTime Date_parse co with
      | Num start, Num stop =>
          let diffMs := (stop - start)%Q in
          if Qltb diffMs 0 then "0h 0m" else
          let diffHours := Qfloor (diffMs / (1000 * 60 * 60)) in
          let diffMinutes :=
            Qfloor (Qrem diffMs (1000 * 60 * 60) / (1000 * 60)) in
          string_of_Z diffHours ++ "h " ++ string_of_Z diffMinutes ++ "m"
      | _, _ => "0h 0m"
      end
  | _, _ => "0h 0m"
  end.
End WithDate.

(** [if (!status) return 'badge-secondary'] comes before the [switch]. *)
Definition getStatusBadgeClass (status : option string) : string :=
  match status with
  | Some status =>
      if (status =? "")%string then "badge-secondary" else
      let s := toLowerCase status in
      if (s =? "present")%string then "badge-success"
      else if (s =? "ontime")%string then "badge-success"
      else if (s =? "absent")%string then "badge-danger"
      else if (s =? "late")%string then "badge-warning"
      else if (s =? "leave")%string then "badge-info"
      else "badge-secondary"
  | None => "badge-secondary"
  end.

Definition getBreakStatus (record : AttendanceRow) : string :=
  match ar_currentBreak record with
  | Some b =>
      let breakType := or_string (cb_type b) "break" in
      if (toLowerCase breakType =? "tea")%string then "Tea Break" else "On Break"
  | None => if ar_isSeated record then "On Seat" else ""
  end.

Definition getBreakIcon (record : AttendanceRow) : string :=
  match ar_currentBreak record with
  | None => "bi-laptop"
  | Some b =>
      let breakType := or_string (cb_type b) "break" in
      if (toLowerCase breakType =? "tea")%string
      then "bi-cup-hot-fill" else "bi-pause-circle"
  end.

Definition getBreakBadgeClass (record : AttendanceRow) : string :=
  match ar_currentBreak record with
  | None => "text-primary"
  | Some _ => "text-warning"
  end.

(** [this.employees.find(emp => emp.id === userId)]. *)
Definition findEmployee (employees : list Employee) (userId : string)
  : option Employee :=
  List.find (fun emp => (e_id emp =? userId)%string) employees.


Definition getAttendancePoints (employees : list Employee) (userId : string) : Q :=
  match findEmployee employees userId with
  | Some employee => or_Q (e_monthlyAttendancePoint employee) 0
  | None => 0%Q
  end.

(** [e.deactivated === false || e.deactivated === undefined]. *)
Definition isActive (e : Employee) : bool :=
  match e_deactivated e with
  | Some false => true
  | None => true
  | Some true => false
  end.

Definition getActiveEmployeesForDisplay (employees : list Employee)
  : list Employee :=
  Array_slice 0 6 (List.filter isActive employees).

(** ** The clock

    [updateDateTime] reads the current date through its local-time
    getters, modelled by their values. *)

Record DateFields := {
  getDay : Z;
  getMonth : Z;
  getDate : Z;
  getFullYear : Z;
  getHours : Z;
  getMinutes : Z;
  getSeconds : Z
}.

Record Clock := {
  currentDay : option string;
  currentDate : string;
  currentTime : string
}.

Definition days : list string :=
  ["Sunday"; "Monday"; "Tuesday"; "Wednesday"; "Thursday"; "Friday"; "Saturday"].

Definition months : list string :=
  ["January"; "February"; "March"; "April"; "May"; "June";
   "July"; "August"; "September"; "October"; "November"; "December"].

(** [a[i]] for an integer index. *)
Definition at_index (a : list string) (i : Z) : option string :=
  if i <? 0 then None else nth_error a (Z.to_nat i).

Definition updateDateTime (now : DateFields) : Clock :=
  let hours := getHours now in
  let minutes := padStart0 2 (string_of_Z (getMinutes now)) in
  let seconds := padStart0 2 (string_of_Z (getSeconds now)) in
  let ampm := if 12 <=? hours then "PM" else "AM" in
  let hours := if Z.rem hours 12 =? 0 then 12 else Z.rem hours 12 in
  {| currentDay := at_index days (getDay now);
     currentDate := template_opt (at_index months (getMonth now)) ++ " "
                    ++ string_of_Z (getDate now) ++ ", "
                    ++ string_of_Z (getFullYear now);
     currentTime := string_of_Z hours ++ ":" ++ minutes ++ ":" ++ seconds
                    ++ " " ++ ampm |}.

End AdminDashboard.

(* ===================================================================== *)
(** * Vocabulary of the specification *)
(* ===================================================================== *)

Module Spec.
Import JS.

(** The five status values the aggregator recognizes (after lower-casing). *)
Definition recognizedStatuses : list string :=
  ["present"; "absent"; "late"; "leave"; "ontime"].

Definition recognized (s : string) : bool :=
  existsb (String.eqb s) recognizedStatuses.

(** The five per-status counters of the statistics, without [totalStaff]. *)
Definition statusCounters (s : Attendance.AttendanceStats) : Z * Z * Z * Z * Z :=
  (Attendance.totalPresent s, Attendance.totalAbsent s, Attendance.totalLate s,
   Attendance.totalLeave s, Attendance.totalOnTime s).

(** The statistics [calculateStats] computes for a list of records. *)
Definition statsOf (period : Attendance.Period)
  (pagination : option Attendance.PaginatedData)
  (records : list Attendance.AttendanceRecord) : Attendance.AttendanceStats :=
  Attendance.attendanceStats
    (Attendance.calculateStats
       {| Attendance.attendanceRecords := records;
          Attendance.paginationData := pagination;
          Attendance.attendanceStats := Attendance.zeroStats;
          Attendance.selectedPeriod := period |}).

(** A record with the given status and user id. *)
Definition mkRecord (st : option string) (uid : string) : Attendance.AttendanceRecord :=
  {| Attendance.record_id := ""; Attendance.date := "";
     Attendance.checkIn := None; Attendance.checkOut := None;
     Attendance.status := st; Attendance.isSeated := false;
     Attendance.currentBreak := None; Attendance.breaks := nil;
     Attendance.user := {| Attendance.user_id := uid; Attendance.firstName := "";
                           Attendance.lastName := ""; Attendance.employeeId := "" |} |}.

Definition mkPage (items : option Z) (records : list Attendance.AttendanceRecord)
  : Attendance.PaginatedData :=
  {| Attendance.page := 1; Attendance.count := Z.of_nat (length records);
     Attendance.totalPages := 1; Attendance.totalItems := items;
     Attendance.pageData := records |}.

(** The statistics with one more absence. *)
Definition bumpAbsent (stats : Attendance.AttendanceStats) : Attendance.AttendanceStats :=
  {| Attendance.totalPresent := Attendance.totalPresent stats;
     Attendance.totalAbsent := Attendance.totalAbsent stats + 1;
     Attendance.totalLate := Attendance.totalLate stats;
     Attendance.totalLeave := Attendance.totalLeave stats;
     Attendance.totalOnTime := Attendance.totalOnTime stats;
     Attendance.totalStaff := Attendance.totalStaff stats |}.

(** A valid check-in/check-out pair: two non-empty strings that parse,
    to [start] and [stop] milliseconds, the check-out not before the
    check-in. *)
Definition validPair (Date_parse : string -> option Z) (ci co : string)
  (start stop : Z) : Prop :=
  ci <> "" /\ co <> "" /\ Date_parse ci = Some start
  /\ Date_parse co = Some stop /\ start <= stop.

(** The whole hours worked: the floor of the duration in hours. *)
Definition flooredHours (start stop : Z) : Z :=
  Qfloor (inject_Z (stop - start) / 3600000)%Q.

(** The English ordinal suffix, in the words of the specification: "th"
    when the last two digits are 11 to 13, otherwise by the last digit. *)
Definition ordinalSuffix (rank : Z) : string :=
  if (11 <=? rank mod 100) && (rank mod 100 <=? 13) then "th"
  else if rank mod 10 =? 1 then "st"
  else if rank mod 10 =? 2 then "nd"
  else if rank mod 10 =? 3 then "rd"
  else "th".

Definition ordinalLabel (rank : Z) : string :=
  string_of_Z rank ++ ordinalSuffix rank.

(** A statistics object on which no key is missing and every count is 0. *)
Definition allCountsZero (t : AdminDashboard.TaskStats) : Prop :=
  AdminDashboard.total t = Some 0
  /\ exists st pr,
      AdminDashboard.stats t
      = Some {| AdminDashboard.status := Some st; AdminDashboard.priority := Some pr |}
      /\ st = {| AdminDashboard.InProgress := Some 0; AdminDashboard.Blocked := Some 0;
                 AdminDashboard.Completed := Some 0; AdminDashboard.UnderReview := Some 0;
                 AdminDashboard.NotStarted := Some 0; AdminDashboard.Overdue := Some 0 |}
      /\ pr = {| AdminDashboard.Critical := Some 0; AdminDashboard.High := Some 0;
                 AdminDashboard.Low := Some 0; AdminDashboard.Medium := Some 0 |}.

(** The empty object [{}]. *)
Definition emptyTaskStats : AdminDashboard.TaskStats :=
  {| AdminDashboard.total := None; AdminDashboard.stats := None |}.







(** A department and a ranked employee with the given fields. *)
Definition mkDept (n : string) : AdminDashboard.Department :=
  {| AdminDashboard.dept_id := n; AdminDashboard.name := n;
     AdminDashboard.description := ""; AdminDashboard.employeeCount := None |}.


(** The best department and its points for a department list. *)
Definition bestOf (departments : list AdminDashboard.Department)
  (employees : list AdminDashboard.RankedEmployee) : string * Z :=
  let c := AdminDashboard.calculateBestDepartment employees
             {| AdminDashboard.departments := departments;
                AdminDashboard.bestDepartment := "";
                AdminDashboard.bestDepartmentPoints := 0 |} in
  (AdminDashboard.bestDepartment c, AdminDashboard.bestDepartmentPoints c).




(** Ascending order of ranks, and a ranked employee of the ranking page. *)
Definition rankLe (a b : Ranking.Employee) : Prop :=
  Ranking.monthlyRank a <= Ranking.monthlyRank b.

Definition ranked (rank : Z) : Ranking.Employee :=
  {| Ranking.emp_id := string_of_Z rank; Ranking.firstName := "";
     Ranking.lastName := ""; Ranking.department := "";
     Ranking.monthlyPoint := 0%Q; Ranking.monthlyRank := rank;
     Ranking.dailyPoint := 0%Q; Ranking.dailyRank := 0 |}.

(** An ok response whose page is the array at [a]. *)
Definition okResponse (a : Ranking.loc) : Ranking.HttpResult :=
  Ranking.HttpNext
    {| Ranking.ok := true;
       Ranking.data := Some {| Ranking.page := 1; Ranking.count := 0;
                               Ranking.totalPages := 1; Ranking.totalItems := 0;
                               Ranking.pageData := a |} |}.

(** A comparator that subtracts integer keys, and the order it sorts into. *)
Definition byKey {A : Type} (key : A -> Z) (a b : A) : Z := key a - key b.

Definition ascending {A : Type} (key : A -> Z) (a b : A) : Prop := key a <= key b.

(** [topN]: the selection of [loadEmployeeRanking] on the contents of
    the array, [l.sort(byMonthlyRank).slice(0, n)]; the source passes
    [n = 3]. *)
Definition topN (n : nat) (l : list Ranking.Employee) : list Ranking.Employee :=
  Array_slice 0 n (Array_sort Ranking.byMonthlyRank l).

(** The status [calculateStats] switches on: lower-cased, ["absent"] when
    missing or empty. *)
Definition effectiveStatus (r : Attendance.AttendanceRecord) : string :=
  or_string (option_map toLowerCase (Attendance.status r)) "absent".

(** The number of records whose effective status is [s]. *)
Definition countWithStatus (s : string)
  (records : list Attendance.AttendanceRecord) : Z :=
  Z.of_nat (length (List.filter (fun r => (effectiveStatus r =? s)%string) records)).

Definition sumOfCounters (s : Attendance.AttendanceStats) : Z :=
  Attendance.totalPresent s + Attendance.totalAbsent s + Attendance.totalLate s
  + Attendance.totalLeave s + Attendance.totalOnTime s.

(** The component after [calculateStats] on a list of records. *)
Definition afterCalculateStats (period : Attendance.Period)
  (pagination : option Attendance.PaginatedData)
  (records : list Attendance.AttendanceRecord) : Attendance.Component :=
  Attendance.calculateStats
    {| Attendance.attendanceRecords := records;
       Attendance.paginationData := pagination;
       Attendance.attendanceStats := Attendance.zeroStats;
       Attendance.selectedPeriod := period |}.

(** A staff profile on page [page] with [total] tasks. *)
Definition profileAt (page total : Z) : Staffprofile.Component :=
  {| Staffprofile.currentPage := page; Staffprofile.totalTasks := total;
     Staffprofile.isLoadingTasks := false; Staffprofile.attendance := nil;
     Staffprofile.weeklyPercentage := 0;
     Staffprofile.stats :=
       {| Staffprofile.st_totalTasks := 0; Staffprofile.st_tasksCompleted := 0;
          Staffprofile.st_overdueTasks := 0; Staffprofile.st_inProgress := 0;
          Staffprofile.st_absentDays := 0; Staffprofile.st_performance := 0 |} |}.

(** A request that delivers no list: an error, a response that is not
    ok, a response without data, or data of another shape. *)
Definition noList {A : Type}
  (result : AdminDashboard.HttpResult (AdminDashboard.ListPayload A)) : Prop :=
  result = AdminDashboard.HttpError
  \/ exists response,
      result = AdminDashboard.HttpNext response
      /\ (AdminDashboard.ok response = false
          \/ AdminDashboard.data response = None
          \/ AdminDashboard.data response = Some AdminDashboard.OtherObject).

(** A pair the working-hours functions treat as no duration: a missing
    or empty string, a string that does not parse, or a check-out before
    the check-in. *)
Definition invalidPair (Date_parse : string -> option Z)
  (checkIn checkOut : option string) : Prop :=
  truthy_string checkIn = false \/ truthy_string checkOut = false
  \/ exists ci co,
      checkIn = Some ci /\ checkOut = Some co
      /\ (Date_parse ci = None \/ Date_parse co = None
          \/ exists start stop,
              Date_parse ci = Some start /\ Date_parse co = Some stop
              /\ stop < start).

(** The whole minutes left after the whole hours. *)
Definition minutesPart (start stop : Z) : Z :=
  ((stop - start) mod 3600000) / 60000.

(** The page an attendance request delivers: the data of an ok
    response. *)
Definition delivered (result : Attendance.HttpResult)
  : option Attendance.PaginatedData :=
  match result with
  | Attendance.HttpNext response =>
      if Attendance.ok response then Attendance.data response else None
  | Attendance.HttpError _ => None
  end.

End Spec.

(* ===================================================================== *)
(** * Attendance statistics *)
(* ===================================================================== *)

Section AttendanceStatistics.
Import JS Attendance Spec.

Lemma statsOf_counters period pagination records :
  statusCounters (statsOf period pagination records)
  = statusCounters (fold_left countStatus records zeroStats).
Proof.
  unfold statsOf, calculateStats; simpl.
  destruct (Period_eqb period Day); reflexivity.
Qed.

Lemma fold_countStatus_middle before r after s :
  fold_left countStatus (before ++ r :: after) s
  = fold_left countStatus after (countStatus (fold_left countStatus before s) r).
Proof. now rewrite fold_left_app. Qed.

(** A record whose lower-cased status is non-empty and unrecognized
    leaves the statistics as they are. *)
Lemma countStatus_unrecognized stats r s :
  status r = Some s -> s <> "" -> recognized (toLowerCase s) = false ->
  countStatus stats r = stats.
Proof.
  intros Hs Hne Hrec. unfold countStatus. rewrite Hs; simpl.
  assert (Hl : (toLowerCase s =? "")%string = false).
  { destruct s as [|a s']; [congruence | reflexivity]. }
  rewrite Hl.
  unfold recognized, recognizedStatuses in Hrec; simpl in Hrec.
  repeat (apply orb_false_elim in Hrec; destruct Hrec as [?H Hrec]).
  now rewrite H, H0, H1, H2, H3.
Qed.

(** A record without status, or with the empty status, counts as absent. *)
Lemma countStatus_missing stats r :
  status r = None \/ status r = Some "" ->
  countStatus stats r = bumpAbsent stats.
Proof. intros [H | H]; unfold countStatus; rewrite H; reflexivity. Qed.

Lemma countStatus_bumpAbsent stats r :
  countStatus (bumpAbsent stats) r = bumpAbsent (countStatus stats r).
Proof.
  unfold countStatus.
  repeat match goal with
         | |- context [if ?b then _ else _] => destruct b
         end; reflexivity.
Qed.

Lemma fold_countStatus_bumpAbsent records stats :
  fold_left countStatus records (bumpAbsent stats)
  = bumpAbsent (fold_left countStatus records stats).
Proof.
  revert stats; induction records as [|r records IH]; intros stats; simpl.
  - reflexivity.
  - now rewrite countStatus_bumpAbsent, IH.
Qed.

Lemma statusCounters_bumpAbsent s s' :
  statusCounters s = statusCounters s' ->
  statusCounters (bumpAbsent s) = statusCounters (bumpAbsent s').
Proof. unfold statusCounters; simpl; intros H; injection H; congruence. Qed.

(** C1, as the code has it: a record whose status is present, non-empty
    and, once lower-cased, none of [present], [absent], [late], [leave],
    [ontime] is counted by [calculateStats] in none of the five status
    counters (the counters are those of the list without the record); a
    record whose status is missing or empty is counted as absent: it adds
    one to [totalAbsent] and leaves the four other counters unchanged. *)
Theorem calculateStats_unrecognized_status_uncounted :
  forall period pagination pagination' before r after,
    (forall s, status r = Some s -> s <> "" ->
               recognized (toLowerCase s) = false ->
       statusCounters (statsOf period pagination (before ++ r :: after))
       = statusCounters (statsOf period pagination' (before ++ after)))
    /\ (status r = None \/ status r = Some "" ->
        statusCounters (statsOf period pagination (before ++ r :: after))
        = statusCounters (bumpAbsent (statsOf period pagination' (before ++ after)))).
Proof.
  intros period pagination pagination' before r after; split.
  - intros s Hs Hne Hrec.
    rewrite !statsOf_counters, fold_countStatus_middle.
    rewrite (countStatus_unrecognized _ r s Hs Hne Hrec).
    now rewrite fold_left_app.
  - intros Hmiss.
    rewrite statsOf_counters, fold_countStatus_middle.
    rewrite (countStatus_missing _ r Hmiss), fold_countStatus_bumpAbsent.
    apply statusCounters_bumpAbsent.
    now rewrite statsOf_counters, fold_left_app.
Qed.

(** The scenario of the specification: statuses Present, Late, Present,
    Unknown give two present and one late; an added record without status
    is one absence. *)
Lemma calculateStats_unrecognized_status_uncounted_witness :
  statusCounters
    (statsOf Day None
       ([mkRecord (Some "Present") "u1"; mkRecord (Some "Late") "u2";
         mkRecord (Some "Present") "u3"]
        ++ mkRecord (Some "Unknown") "u4" :: nil))
  = (2, 0, 1, 0, 0)
  /\ statusCounters
       (statsOf Day None
          ([mkRecord (Some "Present") "u1"] ++ mkRecord None "u2" :: nil))
     = (1, 1, 0, 0, 0).
Proof.
  split.
  - rewrite (proj1 (calculateStats_unrecognized_status_uncounted
                      Day None None
                      [mkRecord (Some "Present") "u1"; mkRecord (Some "Late") "u2";
                       mkRecord (Some "Present") "u3"]
                      (mkRecord (Some "Unknown") "u4") nil) "Unknown").
    + reflexivity.
    + reflexivity.
    + discriminate.
    + reflexivity.
  - rewrite (proj2 (calculateStats_unrecognized_status_uncounted
                      Day None None [mkRecord (Some "Present") "u1"]
                      (mkRecord None "u2") nil)).
    + reflexivity.
    + left; reflexivity.
Defined.

(** C1 as stated fails on a record whose status is missing: the record is
    counted in [totalAbsent]. *)
Lemma calculateStats_missing_status_counted_absent :
  status (mkRecord None "u1") = None
  /\ statusCounters (statsOf Day None [mkRecord None "u1"]) = (0, 1, 0, 0, 0)
  /\ statusCounters (statsOf Day None []) = (0, 0, 0, 0, 0).
Proof. repeat split. Qed.

End AttendanceStatistics.

Section TotalStaff.
Import JS Attendance Spec.

Lemma totalStaff_Day pagination records :
  totalStaff (statsOf Day pagination records)
  = Z.of_nat (size (uniqueUsers records)).
Proof. reflexivity. Qed.

Lemma totalStaff_other period pagination records :
  period <> Day ->
  totalStaff (statsOf period pagination records)
  = totalItemsOrLength pagination records.
Proof. destruct period; [congruence | reflexivity ..]. Qed.

(** The size of the set built from a list is the length of any
    duplicate-free enumeration of its elements. *)
Lemma size_list_to_set_enum (l ids : list string) :
  NoDup ids -> (forall x, In x ids <-> In x l) ->
  size (list_to_set l : gset string) = length ids.
Proof.
  intros Hnd Hiff.
  rewrite <- (size_list_to_set (C := gset string) ids).
  - f_equal. apply set_eq; intros x.
    rewrite !elem_of_list_to_set, !list_elem_of_In.
    symmetry; apply Hiff.
  - assumption.
Qed.

(** C5, as the code has it: for period Day, [totalStaff] is the number of
    distinct user ids of the records; for every other period it is the
    pagination's [totalItems] when that is present and not zero, and the
    number of records when there is no pagination data, no [totalItems],
    or [totalItems] is zero. *)
Theorem calculateStats_totalStaff :
  forall pagination records,
    (forall ids, List.NoDup ids ->
       (forall x, In x ids <-> exists r, In r records /\ user_id (user r) = x) ->
       totalStaff (statsOf Day pagination records) = Z.of_nat (length ids))
    /\ (forall period, period <> Day ->
          (forall pd n, pagination = Some pd -> totalItems pd = Some n -> n <> 0 ->
             totalStaff (statsOf period pagination records) = n)
          /\ (pagination = None
              \/ (exists pd, pagination = Some pd
                    /\ (totalItems pd = None \/ totalItems pd = Some 0)) ->
              totalStaff (statsOf period pagination records)
              = Z.of_nat (length records))).
Proof.
  intros pagination records; split.
  - intros ids Hnd Hiff. rewrite totalStaff_Day. f_equal.
    apply size_list_to_set_enum.
    + now apply NoDup_ListNoDup.
    + intros x. rewrite Hiff, in_map_iff.
      split; intros [r Hr]; exists r; tauto.
  - intros period Hp; split.
    + intros pd n Hpd Hn Hnz. rewrite totalStaff_other by assumption.
      unfold totalItemsOrLength. rewrite Hpd, Hn.
      destruct (Z.eqb_spec n 0); [contradiction | reflexivity].
    + intros H. rewrite totalStaff_other by assumption.
      unfold totalItemsOrLength.
      destruct H as [-> | (pd & -> & [-> | ->])]; reflexivity.
Qed.

(** Two records of one user on a Day count one member of staff; a Week
    with 42 items counts 42; a Week without pagination data counts the
    records. *)
Lemma calculateStats_totalStaff_witness :
  totalStaff (statsOf Day None
                [mkRecord (Some "present") "u1"; mkRecord (Some "late") "u1"]) = 1
  /\ totalStaff (statsOf Week (Some (mkPage (Some 42) []))
                   [mkRecord (Some "present") "u1"]) = 42
  /\ totalStaff (statsOf Week None [mkRecord (Some "present") "u1"]) = 1.
Proof.
  split; [| split].
  - apply (proj1 (calculateStats_totalStaff None
                    [mkRecord (Some "present") "u1"; mkRecord (Some "late") "u1"])
             ["u1"]).
    + repeat constructor. simpl; tauto.
    + intros x; simpl; split.
      * intros [<- | []]. exists (mkRecord (Some "present") "u1"); auto.
      * intros [r [[<- | [<- | []]] <-]]; auto.
  - apply (proj1 (proj2 (calculateStats_totalStaff (Some (mkPage (Some 42) []))
                           [mkRecord (Some "present") "u1"]) Week
                    ltac:(discriminate)) (mkPage (Some 42) []) 42);
      [reflexivity | reflexivity | lia].
  - apply (proj2 (proj2 (calculateStats_totalStaff None
                           [mkRecord (Some "present") "u1"]) Week
                    ltac:(discriminate))).
    left; reflexivity.
Defined.

(** C5 as stated fails when the paginated source supplies a [totalItems]
    of zero next to a non-empty page: the record count is used. *)
Lemma calculateStats_totalStaff_zero_totalItems :
  let records := [mkRecord (Some "present") "u1"] in
  let pd := mkPage (Some 0) records in
  totalItems pd = Some 0
  /\ totalStaff (statsOf Week (Some pd) records) = 1.
Proof. split; reflexivity. Qed.

End TotalStaff.

(* ===================================================================== *)
(** * Working hours *)
(* ===================================================================== *)

Section WorkingHours.
Import JS.
Variable Date_parse : string -> option Z.

Lemma getTime_parsed s ms :
  Date_parse s = Some ms -> getTime Date_parse s = Num (inject_Z ms).
Proof. unfold getTime; now intros ->. Qed.

Lemma getTime_invalid s :
  Date_parse s = None -> getTime Date_parse s = NaN.
Proof. unfold getTime; now intros ->. Qed.

Lemma eqb_empty_false s : s <> "" -> (s =? "")%string = false.
Proof. intros H; now apply String.eqb_neq. Qed.

Lemma Qltb_true x y : Qltb x y = true <-> (x < y)%Q.
Proof.
  unfold Qltb. rewrite negb_true_iff, <- not_true_iff_false, Qle_bool_iff.
  split; [apply Qnot_le_lt | apply Qlt_not_le].
Qed.

Lemma Qltb_false x y : Qltb x y = false <-> (y <= x)%Q.
Proof. unfold Qltb. now rewrite negb_false_iff, Qle_bool_iff. Qed.

Lemma diffMs_Z start stop :
  (inject_Z stop - inject_Z start == inject_Z (stop - start))%Q.
Proof. unfold Z.sub. now rewrite inject_Z_plus, inject_Z_opp. Qed.

(** ** The service: [calculateWorkingHours] *)

Lemma calculateWorkingHours_null checkIn checkOut :
  truthy_string checkIn = false \/ truthy_string checkOut = false ->
  AttendanceService.calculateWorkingHours Date_parse checkIn checkOut
  = AttendanceService.zeroDuration.
Proof.
  unfold AttendanceService.calculateWorkingHours, truthy_string.
  destruct checkIn as [ci|], checkOut as [co|]; try reflexivity.
  rewrite !negb_false_iff. intros [-> | ->]; [reflexivity |].
  now rewrite orb_true_r.
Qed.

Lemma calculateWorkingHours_reversed ci co start stop :
  Date_parse ci = Some start -> Date_parse co = Some stop -> stop < start ->
  AttendanceService.calculateWorkingHours Date_parse (Some ci) (Some co)
  = AttendanceService.zeroDuration.
Proof.
  intros Hci Hco Hlt. unfold AttendanceService.calculateWorkingHours.
  destruct ((ci =? "")%string || (co =? "")%string); [reflexivity |].
  rewrite (getTime_parsed _ _ Hci), (getTime_parsed _ _ Hco); simpl.
  replace (Qltb (inject_Z stop - inject_Z start) 0) with true; [reflexivity |].
  symmetry; apply Qltb_true. rewrite diffMs_Z.
  change 0%Q with (inject_Z 0). rewrite <- Zlt_Qlt. lia.
Qed.

(** C2 on [AttendanceService.calculateWorkingHours]: when one of the two
    non-empty strings does not parse as a timestamp, the three components
    of the result are [NaN], where the claim (and the sibling
    [Attendance.getWorkingHours], with its [isNaN] guard) gives the zero
    duration. *)
Theorem calculateWorkingHours_unparseable_NaN :
  forall ci co,
    ci <> "" -> co <> "" ->
    Date_parse ci = None \/ Date_parse co = None ->
    AttendanceService.calculateWorkingHours Date_parse (Some ci) (Some co)
    = {| AttendanceService.hours := NaN;
         AttendanceService.minutes := NaN;
         AttendanceService.total := NaN |}.
Proof.
  intros ci co Hci Hco Hbad. unfold AttendanceService.calculateWorkingHours.
  rewrite (eqb_empty_false ci Hci), (eqb_empty_false co Hco); simpl.
  assert (Hdiff : sub (getTime Date_parse co) (getTime Date_parse ci) = NaN).
  { destruct Hbad as [H | H]; rewrite (getTime_invalid _ H);
      [destruct (getTime Date_parse co) | ]; reflexivity. }
  rewrite Hdiff. reflexivity.
Qed.

Lemma calculateWorkingHours_unparseable_hours ci co :
  ci <> "" -> co <> "" ->
  Date_parse ci = None \/ Date_parse co = None ->
  AttendanceService.hours
    (AttendanceService.calculateWorkingHours Date_parse (Some ci) (Some co)) = NaN.
Proof.
  intros Hci Hco Hbad. unfold AttendanceService.calculateWorkingHours.
  rewrite (eqb_empty_false ci Hci), (eqb_empty_false co Hco); simpl.
  assert (Hdiff : sub (getTime Date_parse co) (getTime Date_parse ci) = NaN).
  { destruct Hbad as [H | H]; rewrite (getTime_invalid _ H);
      [destruct (getTime Date_parse co) | ]; reflexivity. }
  rewrite Hdiff. reflexivity.
Qed.

(** ** The component: [getWorkingHours] *)

Lemma getWorkingHours_null checkIn checkOut :
  truthy_string checkIn = false \/ truthy_string checkOut = false ->
  Attendance.getWorkingHours Date_parse checkIn checkOut = "0H 0M".
Proof.
  unfold Attendance.getWorkingHours, truthy_string.
  destruct checkIn as [ci|], checkOut as [co|]; try reflexivity.
  rewrite !negb_false_iff. intros [-> | ->]; [reflexivity |].
  now rewrite orb_true_r.
Qed.

Lemma getWorkingHours_unparseable ci co :
  Date_parse ci = None \/ Date_parse co = None ->
  Attendance.getWorkingHours Date_parse (Some ci) (Some co) = "0H 0M".
Proof.
  intros Hbad. unfold Attendance.getWorkingHours.
  destruct ((ci =? "")%string || (co =? "")%string); [reflexivity |].
  destruct Hbad as [H | H]; rewrite (getTime_invalid _ H);
    [| destruct (getTime Date_parse ci)]; reflexivity.
Qed.

Lemma getWorkingHours_reversed ci co start stop :
  Date_parse ci = Some start -> Date_parse co = Some stop -> stop < start ->
  Attendance.getWorkingHours Date_parse (Some ci) (Some co) = "0H 0M".
Proof.
  intros Hci Hco Hlt. unfold Attendance.getWorkingHours.
  destruct ((ci =? "")%string || (co =? "")%string); [reflexivity |].
  rewrite (getTime_parsed _ _ Hci), (getTime_parsed _ _ Hco).
  replace (Qltb (inject_Z stop - inject_Z start) 0) with true; [reflexivity |].
  symmetry; apply Qltb_true. rewrite diffMs_Z.
  change 0%Q with (inject_Z 0). rewrite <- Zlt_Qlt. lia.
Qed.

End WorkingHours.

(** The scenario of the specification: 09:00 to 17:30 is 8 hours 30
    minutes, 8.5 hours in total. *)
Example calculateWorkingHours_scenario :
  let w := AttendanceService.calculateWorkingHours JS.iso_parse
             (Some "2024-01-01T09:00:00Z") (Some "2024-01-01T17:30:00Z") in
  AttendanceService.hours w = JS.Num 8
  /\ AttendanceService.minutes w = JS.Num 30
  /\ JS.number_eq (AttendanceService.total w) (JS.Num (17 # 2)).
Proof. repeat split. Qed.

Example getWorkingHours_scenario :
  Attendance.getWorkingHours JS.iso_parse
    (Some "2024-01-01T09:00:00Z") (Some "2024-01-01T17:30:00Z") = "8H 30M"
  /\ Attendance.getWorkingHours JS.iso_parse
       (Some "2024-01-01T17:30:00Z") (Some "2024-01-01T09:00:00Z") = "0H 0M"
  /\ Attendance.getWorkingHours JS.iso_parse
       (Some "yesterday") (Some "2024-01-01T09:00:00Z") = "0H 0M".
Proof. repeat split. Qed.

(** The failing input of C2: an unparseable check-in next to a valid
    check-out. *)
Lemma calculateWorkingHours_unparseable_NaN_witness :
  JS.iso_parse "yesterday" = None
  /\ AttendanceService.calculateWorkingHours JS.iso_parse
       (Some "yesterday") (Some "2024-01-01T17:30:00Z")
     = {| AttendanceService.hours := JS.NaN;
          AttendanceService.minutes := JS.NaN;
          AttendanceService.total := JS.NaN |}.
Proof.
  split; [reflexivity |].
  apply (calculateWorkingHours_unparseable_NaN JS.iso_parse);
    [discriminate | discriminate | left; reflexivity].
Defined.

(* ===================================================================== *)
(** * Attendance points *)
(* ===================================================================== *)

Section AttendancePoints.
Import JS Spec.
Variable Date_parse : string -> option Z.

Lemma flooredHours_code start stop :
  Qfloor ((inject_Z stop - inject_Z start) / (1000 * 60 * 60))%Q
  = flooredHours start stop.
Proof.
  unfold flooredHours. apply Qfloor_comp. now rewrite diffMs_Z.
Qed.

Lemma flooredHours_div start stop :
  flooredHours start stop = (stop - start) / 3600000.
Proof. unfold flooredHours. now rewrite Zdiv_Qdiv. Qed.

Lemma diffMs_not_negative start stop :
  start <= stop -> Qltb (inject_Z stop - inject_Z start) 0 = false.
Proof.
  intros H. apply Qltb_false. rewrite diffMs_Z.
  change 0%Q with (inject_Z 0). rewrite <- Zle_Qle. lia.
Qed.

(** Forty points an hour, capped at 320, on integers. *)
Lemma Qmin_points h :
  (Qmin (inject_Z h * 40) 320 == inject_Z (Z.min (h * 40) 320))%Q.
Proof.
  change 40%Q with (inject_Z 40). change 320%Q with (inject_Z 320).
  rewrite <- inject_Z_mult.
  destruct (Z.le_ge_cases (h * 40) 320) as [Hle | Hge].
  - rewrite Z.min_l by assumption. apply Q.min_l. now rewrite <- Zle_Qle.
  - rewrite Z.min_r by assumption. apply Q.min_r. now rewrite <- Zle_Qle.
Qed.

Lemma service_points_valid ci co start stop :
  validPair Date_parse ci co start stop ->
  AttendanceService.calculateAttendancePoints Date_parse (Some ci) (Some co) None
  = Num (Qmin (inject_Z (Qfloor ((inject_Z stop - inject_Z start)
                                 / (1000 * 60 * 60))) * 40) 320).
Proof.
  intros (Hci & Hco & Hs & He & Hle).
  unfold AttendanceService.calculateAttendancePoints,
    AttendanceService.calculateWorkingHours.
  rewrite (eqb_empty_false ci Hci), (eqb_empty_false co Hco).
  rewrite (getTime_parsed _ _ _ Hs), (getTime_parsed _ _ _ He).
  unfold orb, sub, lift2, lt. rewrite (diffMs_not_negative _ _ Hle).
  reflexivity.
Qed.

Lemma component_points_valid ci co start stop :
  validPair Date_parse ci co start stop ->
  Attendance.getAttendancePoints Date_parse (Some ci) (Some co)
  = Num (Qmin (inject_Z (Qfloor ((inject_Z stop - inject_Z start)
                                 / (1000 * 60 * 60))) * 40) 320).
Proof.
  intros (Hci & Hco & Hs & He & Hle).
  unfold Attendance.getAttendancePoints.
  rewrite (eqb_empty_false ci Hci), (eqb_empty_false co Hco).
  rewrite (getTime_parsed _ _ _ Hs), (getTime_parsed _ _ _ He).
  unfold orb. rewrite (diffMs_not_negative _ _ Hle).
  reflexivity.
Qed.

(** C6: on a valid pair both point computations give the floored whole
    hours times 40, capped at 320; the result is 320 as soon as the
    floored hours reach 8, and it does not decrease when the floored hours
    grow. *)
Theorem attendance_points_floor_clamped :
  forall ci co start stop,
    validPair Date_parse ci co start stop ->
    let h := flooredHours start stop in
    let service :=
      AttendanceService.calculateAttendancePoints Date_parse (Some ci) (Some co) None in
    let component := Attendance.getAttendancePoints Date_parse (Some ci) (Some co) in
    number_eq service (Num (inject_Z (Z.min (h * 40) 320)))
    /\ number_eq component (Num (inject_Z (Z.min (h * 40) 320)))
    /\ (8 <= h -> number_eq service (Num 320) /\ number_eq component (Num 320))
    /\ (forall ci' co' start' stop',
          validPair Date_parse ci' co' start' stop' ->
          h <= flooredHours start' stop' ->
          number_le service
            (AttendanceService.calculateAttendancePoints Date_parse
               (Some ci') (Some co') None)
          /\ number_le component
               (Attendance.getAttendancePoints Date_parse (Some ci') (Some co'))).
Proof.
  intros ci co start stop Hv h service component.
  assert (Hs : number_eq service (Num (inject_Z (Z.min (h * 40) 320)))).
  { subst service h. rewrite (service_points_valid _ _ _ _ Hv), flooredHours_code.
    apply Qmin_points. }
  assert (Hc : number_eq component (Num (inject_Z (Z.min (h * 40) 320)))).
  { subst component h. rewrite (component_points_valid _ _ _ _ Hv), flooredHours_code.
    apply Qmin_points. }
  split; [exact Hs | split; [exact Hc | split]].
  - intros H8. rewrite Z.min_r in Hs, Hc by lia. split; assumption.
  - intros ci' co' start' stop' Hv' Hle.
    subst service component.
    rewrite (service_points_valid _ _ _ _ Hv), (component_points_valid _ _ _ _ Hv).
    rewrite (service_points_valid _ _ _ _ Hv'), (component_points_valid _ _ _ _ Hv').
    unfold number_le. rewrite !flooredHours_code, !Qmin_points, <- !Zle_Qle.
    split; apply Z.min_le_compat_r; subst h; lia.
Qed.

End AttendancePoints.

(** The scenario of the specification: 09:00 to 17:30 is eight whole hours
    and 320 points; 09:00 to 11:30 is two whole hours and 80 points. *)
Lemma attendance_points_floor_clamped_witness :
  Spec.flooredHours 1704099600000 1704130200000 = 8
  /\ JS.number_eq
       (AttendanceService.calculateAttendancePoints JS.iso_parse
          (Some "2024-01-01T09:00:00Z") (Some "2024-01-01T17:30:00Z") None)
       (JS.Num 320)
  /\ JS.number_eq
       (Attendance.getAttendancePoints JS.iso_parse
          (Some "2024-01-01T09:00:00Z") (Some "2024-01-01T17:30:00Z"))
       (JS.Num 320)
  /\ JS.number_le
       (Attendance.getAttendancePoints JS.iso_parse
          (Some "2024-01-01T09:00:00Z") (Some "2024-01-01T11:30:00Z"))
       (Attendance.getAttendancePoints JS.iso_parse
          (Some "2024-01-01T09:00:00Z") (Some "2024-01-01T17:30:00Z")).
Proof.
  assert (Hlong : Spec.validPair JS.iso_parse "2024-01-01T09:00:00Z"
                    "2024-01-01T17:30:00Z" 1704099600000 1704130200000).
  { repeat split; try discriminate. }
  assert (Hshort : Spec.validPair JS.iso_parse "2024-01-01T09:00:00Z"
                     "2024-01-01T11:30:00Z" 1704099600000 1704108600000).
  { repeat split; try discriminate. }
  split; [reflexivity |].
  split; [| split].
  - apply (proj1 (proj2 (proj2 (attendance_points_floor_clamped JS.iso_parse
                                  _ _ _ _ Hlong)))).
    vm_compute; discriminate.
  - apply (proj1 (proj2 (proj2 (attendance_points_floor_clamped JS.iso_parse
                                  _ _ _ _ Hlong)))).
    vm_compute; discriminate.
  - apply (proj2 (proj2 (proj2 (attendance_points_floor_clamped JS.iso_parse
                                  _ _ _ _ Hshort))) _ _ _ _ Hlong).
    vm_compute; discriminate.
Defined.

(* ===================================================================== *)
(** * Rank labels *)
(* ===================================================================== *)

Section RankLabels.
Import JS Spec.

(** [Staffprofile.getDayRankSuffix] follows the English rules on every
    positive rank. *)
Lemma getDayRankSuffix_english rank :
  0 < rank -> Staffprofile.getDayRankSuffix (Some rank) = ordinalSuffix rank.
Proof.
  intros Hpos. unfold Staffprofile.getDayRankSuffix, ordinalSuffix.
  destruct (Z.eqb_spec rank 0); [lia |].
  rewrite !Z.rem_mod_nonneg by lia. reflexivity.
Qed.

(** [Ranking.getRankLabel] agrees with them up to rank 20. *)
Lemma getRankLabel_english_upto_20 rank :
  1 <= rank <= 20 -> Ranking.getRankLabel rank = ordinalLabel rank.
Proof.
  intros H.
  assert (Hn : rank = Z.of_nat (Z.to_nat rank)) by lia.
  rewrite Hn. remember (Z.to_nat rank) as n eqn:En.
  assert (Hr : (1 <= n <= 20)%nat) by lia. clear - Hr.
  do 21 (destruct n as [|n]; [try lia; reflexivity |]). lia.
Qed.

(** Above 3 the label of [Ranking.getRankLabel] always ends in "th". *)
Lemma getRankLabel_above_3 rank :
  3 < rank -> Ranking.getRankLabel rank = string_of_Z rank ++ "th".
Proof.
  intros H. unfold Ranking.getRankLabel.
  destruct (Z.eqb_spec rank 1); [lia |].
  destruct (Z.eqb_spec rank 2); [lia |].
  destruct (Z.eqb_spec rank 3); [lia | reflexivity].
Qed.

(** C8 on [Ranking.getRankLabel]: rank 21 is labelled "21th", where the
    English rules of the claim (and [Staffprofile.getDayRankSuffix]) give
    "21st". *)
Theorem getRankLabel_21_is_21th :
  Ranking.getRankLabel 21 = "21th"
  /\ ordinalLabel 21 = "21st"
  /\ Staffprofile.getDayRankSuffix (Some 21) = "st".
Proof. repeat split. Qed.

End RankLabels.

(* ===================================================================== *)
(** * Task statistics *)
(* ===================================================================== *)

Section TaskStatistics.
Import Spec AdminDashboard.

Lemma zeroTaskStats_allCountsZero : allCountsZero zeroTaskStats.
Proof. split; [reflexivity |]. eexists _, _; repeat split. Qed.

(** C7, as the code has it: [loadTaskStats] returns the data of an ok
    response as it is, whatever keys it carries; it returns the object
    with [total] 0 and all ten counts 0 when the request fails, the
    response is not ok, or the response carries no data. *)
Theorem loadTaskStats_passthrough_or_zero :
  forall result : HttpResult TaskStats,
    (forall response d,
        result = HttpNext response -> ok response = true ->
        data response = Some d ->
        loadTaskStats result = d)
    /\ (result = HttpError
        \/ (exists response, result = HttpNext response
              /\ (ok response = false \/ data response = None)) ->
        loadTaskStats result = zeroTaskStats /\ allCountsZero (loadTaskStats result)).
Proof.
  intros result; split.
  - intros response d -> Hok Hd. unfold loadTaskStats. now rewrite Hok, Hd.
  - intros H.
    assert (Hz : loadTaskStats result = zeroTaskStats).
    { destruct H as [-> | (response & -> & [H | H])]; unfold loadTaskStats;
        [reflexivity | now rewrite H |].
      rewrite H. now destruct (ok response). }
    rewrite Hz. split; [reflexivity | apply zeroTaskStats_allCountsZero].
Qed.

(** An ok response with a partial object, a response that is not ok, an
    empty response and a failed request. *)
Lemma loadTaskStats_passthrough_or_zero_witness :
  let partial := {| total := Some 7; stats := None |} in
  loadTaskStats (HttpNext {| ok := true; data := Some partial |}) = partial
  /\ allCountsZero (loadTaskStats (HttpNext {| ok := false; data := Some partial |}))
  /\ allCountsZero (loadTaskStats (HttpNext {| ok := false; data := None |}))
  /\ allCountsZero (loadTaskStats HttpError).
Proof.
  intros partial; split; [| split; [| split]].
  - apply (proj1 (loadTaskStats_passthrough_or_zero
                    (HttpNext {| ok := true; data := Some partial |}))
             {| ok := true; data := Some partial |} partial); reflexivity.
  - apply (proj2 (loadTaskStats_passthrough_or_zero
                    (HttpNext {| ok := false; data := Some partial |}))).
    right. exists {| ok := false; data := Some partial |}.
    split; [reflexivity | left; reflexivity].
  - apply (proj2 (loadTaskStats_passthrough_or_zero
                    (HttpNext {| ok := false; data := None |}))).
    right. exists {| ok := false; data := None |}.
    split; [reflexivity | right; reflexivity].
  - apply (proj2 (loadTaskStats_passthrough_or_zero HttpError)).
    left; reflexivity.
Defined.

(** C7 as stated fails when the data of an ok response is the empty
    object: it comes back as it is, with no [total] and no counts. *)
Lemma loadTaskStats_empty_object_not_filled :
  let result := loadTaskStats (HttpNext {| ok := true; data := Some emptyTaskStats |}) in
  result = emptyTaskStats /\ total result = None /\ stats result = None
  /\ ~ allCountsZero result.
Proof.
  repeat split. intros [H _]. discriminate H.
Qed.

End TaskStatistics.

(* ===================================================================== *)
(** * Maps in insertion order *)
(* ===================================================================== *)

Section MapFacts.
Import JS Spec.
Context {V : Type}.
Implicit Types (m : list (string * V)) (k : string) (v : V).

Lemma Map_get_set k k' v m :
  Map_get k' (Map_set k v m) = if (k' =? k)%string then Some v else Map_get k' m.
Proof.
  induction m as [|[k0 v0] m IH]; simpl.
  - reflexivity.
  - destruct (String.eqb_spec k k0) as [-> | Hne]; simpl.
    + destruct (k' =? k0)%string; reflexivity.
    + rewrite IH. destruct (String.eqb_spec k' k0) as [-> | Hne'].
      * destruct (String.eqb_spec k0 k); [congruence | reflexivity].
      * reflexivity.
Qed.

Lemma Map_get_set_eq k v m : Map_get k (Map_set k v m) = Some v.
Proof. now rewrite Map_get_set, String.eqb_refl. Qed.






(** ** The [forEach] that keeps the first strictly greater value *)

Variable ltb : V -> V -> bool.
Hypothesis ltb_irrefl : forall x, ltb x x = false.
Hypothesis ltb_asym : forall x y, ltb x y = true -> ltb y x = false.




End MapFacts.

(* ===================================================================== *)
(** * Department totals *)
(* ===================================================================== *)

Section Departments.
Import JS Spec AdminDashboard.








(** ** Initialisation *)





(** ** Adding the employees' points *)














(** ** Counting the employees *)










(** ** The selection *)


Lemma bestOf_empty ds es : es = [] \/ ds = [] -> bestOf ds es = ("N/A", 0).
Proof.
  intros [-> | ->]; unfold bestOf, calculateBestDepartment; cbn [departments length Nat.eqb orb].
  - reflexivity.
  - now rewrite orb_true_r.
Qed.

Lemma bestOf_nonempty ds es maxPoints bestDept :
  es <> [] -> ds <> [] ->
  fold_left maxPointsStep (deptPoints ds es) (0%Q, "") = (maxPoints, bestDept) ->
  bestOf ds es
  = (or_string
       (Some (if Qeq_bool maxPoints 0
              then snd (fold_left maxCountStep (deptEmployeeCounts es) (0, bestDept))
              else bestDept)) "N/A",
     Qround maxPoints).
Proof.
  intros He Hd Hfold. unfold bestOf, calculateBestDepartment.
  destruct es as [|e es]; [congruence |]. destruct ds as [|d0 ds]; [congruence |].
  cbn [departments bestDepartment bestDepartmentPoints length Nat.eqb orb
       Nat.ltb Nat.leb].
  rewrite Hfold. now rewrite andb_true_r.
Qed.





Lemma Qround_comp p q : (p == q)%Q -> Qround p = Qround q.
Proof. intros H. unfold Qround. apply Qfloor_comp. now rewrite H. Qed.



End Departments.






(* ===================================================================== *)
(** * Sorting by rank *)
(* ===================================================================== *)

Section SortFacts.
Import JS Spec.
Context {A : Type}.
Variable key : A -> Z.

Local Abbreviation cmp := (byKey key).
Local Abbreviation le := (ascending key).

Lemma sort_insert_perm x l : Permutation (x :: l) (sort_insert cmp x l).
Proof.
  induction l as [|y l IH]; simpl; [reflexivity |].
  destruct (cmp x y <=? 0); [reflexivity |].
  rewrite perm_swap. now apply perm_skip.
Qed.

Lemma Array_sort_perm l : Permutation l (Array_sort cmp l).
Proof.
  induction l as [|x l IH]; simpl; [reflexivity |].
  rewrite <- sort_insert_perm. now apply perm_skip.
Qed.

Lemma sort_insert_HdRel y x l :
  le y x -> HdRel le y l -> HdRel le y (sort_insert cmp x l).
Proof.
  intros Hyx Hl. destruct l as [|z l]; simpl; [now constructor |].
  destruct (cmp x z <=? 0); constructor; [assumption |].
  now inversion Hl.
Qed.

Lemma sort_insert_sorted x l :
  Sorted le l -> Sorted le (sort_insert cmp x l).
Proof.
  induction 1 as [|y l Hs IH Hhd]; simpl; [repeat constructor |].
  destruct (Z.leb_spec (cmp x y) 0) as [Hle | Hgt].
  - constructor; [now constructor |]. constructor. unfold ascending, byKey in *; lia.
  - constructor; [assumption |].
    apply sort_insert_HdRel; [unfold ascending, byKey in *; lia | assumption].
Qed.

Lemma Array_sort_sorted l : Sorted le (Array_sort cmp l).
Proof.
  induction l as [|x l IH]; simpl; [constructor | now apply sort_insert_sorted].
Qed.

(** An array that is already in ascending order is left as it is. *)
Lemma Array_sort_of_sorted l : Sorted le l -> Array_sort cmp l = l.
Proof.
  induction 1 as [|x l Hs IH Hhd]; [reflexivity |].
  change (Array_sort cmp (x :: l)) with (sort_insert cmp x (Array_sort cmp l)).
  rewrite IH.
  destruct Hhd as [|y l Hxy]; simpl; [reflexivity |].
  destruct (Z.leb_spec (cmp x y) 0); [reflexivity | unfold ascending, byKey in *; lia].
Qed.

(** Stability: the elements of one key keep their order. *)
Lemma sort_insert_stable k x l :
  List.filter (fun a => key a =? k) (sort_insert cmp x l)
  = List.filter (fun a => key a =? k) (x :: l).
Proof.
  induction l as [|y l IH]; [reflexivity |].
  simpl sort_insert. destruct (Z.leb_spec (cmp x y) 0) as [Hle | Hgt]; [reflexivity |].
  simpl in IH |- *. rewrite IH.
  destruct (Z.eqb_spec (key x) k), (Z.eqb_spec (key y) k);
    try reflexivity. unfold byKey in Hgt; lia.
Qed.

Lemma Array_sort_stable k l :
  List.filter (fun a => key a =? k) (Array_sort cmp l)
  = List.filter (fun a => key a =? k) l.
Proof.
  induction l as [|x l IH]; [reflexivity |].
  simpl Array_sort. rewrite sort_insert_stable. simpl. now rewrite IH.
Qed.

Lemma Array_slice_prefix n (l : list A) :
  Array_slice 0 n l = firstn n l /\ (Array_slice 0 n l ++ skipn n l)%list = l.
Proof.
  unfold Array_slice. rewrite Nat.sub_0_r. simpl skipn.
  split; [reflexivity | apply firstn_skipn].
Qed.

End SortFacts.

Section RankingStore.
Import JS Spec Ranking.

Lemma sort_lookup (a : loc) (h : heap) (l : list Employee) :
  h !! a = Some l ->
  sort byMonthlyRank a h = Some (a, <[a := Array_sort byMonthlyRank l]> h).
Proof. intros H. unfold sort. now rewrite H. Qed.

Lemma slice_lookup (start stop : nat) (a : loc) (h : heap) (l : list Employee) :
  h !! a = Some l ->
  slice start stop a h
  = Some (fresh (dom h), <[fresh (dom h) := Array_slice start stop l]> h).
Proof. intros H. unfold slice. now rewrite H. Qed.

Lemma fresh_not_allocated (a : loc) (h : heap) (l : list Employee) :
  h !! a = Some l -> fresh (dom h) <> a.
Proof.
  intros H Heq. apply (is_fresh (dom h)). rewrite Heq.
  apply elem_of_dom. now exists l.
Qed.

(** The run of [loadEmployeeRanking] on an ok response whose page is the
    array at [a]. *)
Lemma loadEmployeeRanking_ok (c : Component) (h : heap) (a : loc) (l : list Employee) :
  h !! a = Some l ->
  let sorted := Array_sort byMonthlyRank l in
  let h1 : heap := <[a := sorted]> h in
  loadEmployeeRanking (okResponse a) c h
  = Some ({| employees := a; topThreeEmployees := fresh (dom h1);
             isLoading := false; errorMessage := "" |},
          <[fresh (dom h1) := Array_slice 0 3 sorted]> h1)
  /\ fresh (dom h1) <> a
  /\ (<[fresh (dom h1) := Array_slice 0 3 sorted]> h1) !! a = Some sorted.
Proof.
  intros Hl sorted h1.
  assert (H1 : h1 !! a = Some sorted) by apply lookup_insert_eq.
  pose proof (fresh_not_allocated a h1 sorted H1) as Hfresh.
  split; [| split; [exact Hfresh | now rewrite lookup_insert_ne]].
  unfold loadEmployeeRanking, okResponse. cbn [ok data pageData]. unfold bind.
  rewrite (sort_lookup a h l Hl). fold sorted. fold h1.
  now rewrite (slice_lookup 0 3 a h1 sorted H1).
Qed.

End RankingStore.

Section TopN.
Import JS Spec Ranking.

(** C9: [topN] is the first [n] elements of the list put in ascending
    order of [monthlyRank]: followed by the remaining elements it is an
    ascending rearrangement of the input, in which employees of equal
    rank keep their order; on ranks 2, 1, 3 with [n = 2] it returns the
    rank-1 employee followed by the rank-2 employee.  The ranking page
    stores [topN 3] of the received array as its top three, and the
    dashboard maps the first three of the sorted list to its view model. *)
Theorem topN_first_n_by_rank :
  (forall (l : list Employee) (n : nat),
      topN n l = firstn n (Array_sort byMonthlyRank l)
      /\ length (topN n l) = Nat.min n (length l)
      /\ exists rest,
          Permutation l (topN n l ++ rest)%list
          /\ Sorted rankLe (topN n l ++ rest)%list
          /\ forall k, List.filter (fun e => monthlyRank e =? k) (topN n l ++ rest)%list
                       = List.filter (fun e => monthlyRank e =? k) l)
  /\ topN 2 [ranked 2; ranked 1; ranked 3] = [ranked 1; ranked 2]
  /\ (forall (c : Component) (h : heap) (a : loc) (l : list Employee),
         h !! a = Some l ->
         exists (c' : Component) (h' : heap),
           loadEmployeeRanking (okResponse a) c h = Some (c', h')
           /\ h' !! topThreeEmployees c' = Some (topN 3 l))
  /\ (forall l : list AdminDashboard.RankedEmployee,
         AdminDashboard.loadEmployeeRanks
           (AdminDashboard.HttpNext
              {| AdminDashboard.ok := true;
                 AdminDashboard.data := Some (AdminDashboard.PageEnvelope l) |})
         = map AdminDashboard.toEmployeeRank
             (firstn 3 (Array_sort AdminDashboard.byMonthlyRank l))
         /\ Sorted (fun a b => AdminDashboard.monthlyRank a <= AdminDashboard.monthlyRank b)
              (Array_sort AdminDashboard.byMonthlyRank l)
         /\ Permutation l (Array_sort AdminDashboard.byMonthlyRank l)).
Proof.
  split; [| split; [| split]].
  - intros l n. unfold topN.
    destruct (Array_slice_prefix n (Array_sort byMonthlyRank l)) as [Hfirst Happ].
    split; [exact Hfirst | split].
    + rewrite Hfirst, length_firstn.
      now rewrite (Permutation_length (Array_sort_perm monthlyRank l)).
    + exists (skipn n (Array_sort byMonthlyRank l)). rewrite Happ.
      split; [apply (Array_sort_perm monthlyRank) | split].
      * apply (Array_sort_sorted monthlyRank).
      * intros k. apply (Array_sort_stable monthlyRank).
  - reflexivity.
  - intros c h a l Hl.
    destruct (loadEmployeeRanking_ok c h a l Hl) as (Hrun & _ & _).
    eexists _, _. split; [exact Hrun |]. cbn [topThreeEmployees].
    apply lookup_insert_eq.
  - intros l. split; [| split].
    + unfold AdminDashboard.loadEmployeeRanks. cbn [AdminDashboard.ok AdminDashboard.data].
      now rewrite (proj1 (Array_slice_prefix 3 _)).
    + apply (Array_sort_sorted AdminDashboard.monthlyRank).
    + apply (Array_sort_perm AdminDashboard.monthlyRank).
Qed.

End TopN.

(** The ranking page on an array received as ranks 2, 1, 3. *)
Lemma topN_first_n_by_rank_witness :
  let l := [Spec.ranked 2; Spec.ranked 1; Spec.ranked 3] in
  let h : gmap Ranking.loc (list Ranking.Employee) := {[ 1%positive := l ]} in
  let c := {| Ranking.employees := 2%positive; Ranking.topThreeEmployees := 3%positive;
              Ranking.isLoading := true; Ranking.errorMessage := "" |} in
  exists c' h',
    Ranking.loadEmployeeRanking (Spec.okResponse 1%positive) c h = Some (c', h')
    /\ h' !! Ranking.topThreeEmployees c'
       = Some [Spec.ranked 1; Spec.ranked 2; Spec.ranked 3].
Proof.
  intros l h c.
  destruct (proj1 (proj2 (proj2 topN_first_n_by_rank)) c h 1%positive l)
    as (c' & h' & Hrun & Htop).
  { reflexivity. }
  exists c', h'. split; [exact Hrun | exact Htop].
Defined.

(* ===================================================================== *)
(** * The ranking page sorts its array in place *)
(* ===================================================================== *)

Section InPlace.
Import JS Spec Ranking.

(** C10: after [loadEmployeeRanking] on an ok response, the component's
    [employees] is the very array of the response, and that array now
    holds its former elements in ascending order of [monthlyRank]; the
    top three are a new array.  The array is left as received exactly
    when it was in ascending order already. *)
Theorem loadEmployeeRanking_sorts_in_place :
  forall (c : Component) (h : heap) (a : loc) (l : list Employee),
    h !! a = Some l ->
    exists (c' : Component) (h' : heap),
      loadEmployeeRanking (okResponse a) c h = Some (c', h')
      /\ employees c' = a
      /\ h' !! employees c' = Some (Array_sort byMonthlyRank l)
      /\ Sorted rankLe (Array_sort byMonthlyRank l)
      /\ Permutation l (Array_sort byMonthlyRank l)
      /\ topThreeEmployees c' <> employees c'
      /\ h' !! topThreeEmployees c' = Some (topN 3 l)
      /\ (h' !! employees c' = Some l <-> Sorted rankLe l).
Proof.
  intros c h a l Hl.
  destruct (loadEmployeeRanking_ok c h a l Hl) as (Hrun & Hfresh & Ha).
  eexists _, _. split; [exact Hrun |]. cbn [employees topThreeEmployees].
  split; [reflexivity | split; [exact Ha | split; [| split; [| split;
          [exact Hfresh | split]]]]].
  - apply (Array_sort_sorted monthlyRank).
  - apply (Array_sort_perm monthlyRank).
  - apply lookup_insert_eq.
  - rewrite Ha. split.
    + intros [= Heq]. rewrite <- Heq. apply (Array_sort_sorted monthlyRank).
    + intros Hs. f_equal. now apply (Array_sort_of_sorted monthlyRank).
Qed.

End InPlace.

(** An array received as ranks 2, 1, 3 is stored as ranks 1, 2, 3. *)
Lemma loadEmployeeRanking_sorts_in_place_witness :
  let l := [Spec.ranked 2; Spec.ranked 1; Spec.ranked 3] in
  let h : gmap Ranking.loc (list Ranking.Employee) := {[ 1%positive := l ]} in
  let c := {| Ranking.employees := 2%positive; Ranking.topThreeEmployees := 3%positive;
              Ranking.isLoading := true; Ranking.errorMessage := "" |} in
  exists c' h',
    Ranking.loadEmployeeRanking (Spec.okResponse 1%positive) c h = Some (c', h')
    /\ Ranking.employees c' = 1%positive
    /\ h' !! Ranking.employees c' = Some [Spec.ranked 1; Spec.ranked 2; Spec.ranked 3]
    /\ h' !! Ranking.employees c' <> Some l.
Proof.
  intros l h c.
  destruct (loadEmployeeRanking_sorts_in_place c h 1%positive l)
    as (c' & h' & Hrun & Hemp & Hsorted & _ & _ & _ & _ & _).
  { reflexivity. }
  exists c', h'. split; [exact Hrun | split; [exact Hemp | split]].
  - exact Hsorted.
  - rewrite Hsorted. discriminate.
Defined.

(* ===================================================================== *)
(** * The counters of the attendance page *)
(* ===================================================================== *)

Section AttendanceCounters.
Import JS Attendance Spec.

Lemma countWithStatus_cons s r records :
  countWithStatus s (r :: records)
  = (if (effectiveStatus r =? s)%string then 1 else 0) + countWithStatus s records.
Proof.
  unfold countWithStatus. simpl List.filter.
  destruct (effectiveStatus r =? s)%string; simpl length; lia.
Qed.

Lemma countStatus_effective stats r :
  countStatus stats r
  = let status := effectiveStatus r in
    {| totalPresent := totalPresent stats + (if (status =? "present")%string then 1 else 0);
       totalAbsent := totalAbsent stats + (if (status =? "absent")%string then 1 else 0);
       totalLate := totalLate stats + (if (status =? "late")%string then 1 else 0);
       totalLeave := totalLeave stats + (if (status =? "leave")%string then 1 else 0);
       totalOnTime := totalOnTime stats + (if (status =? "ontime")%string then 1 else 0);
       totalStaff := totalStaff stats |}.
Proof.
  unfold countStatus. fold (effectiveStatus r). cbv zeta.
  destruct stats as [p a l v o t]; cbn [totalPresent totalAbsent totalLate
                                        totalLeave totalOnTime totalStaff].
  destruct (String.eqb_spec (effectiveStatus r) "present") as [-> | ?];
    [cbn; f_equal; lia |].
  destruct (String.eqb_spec (effectiveStatus r) "absent") as [-> | ?];
    [cbn; f_equal; lia |].
  destruct (String.eqb_spec (effectiveStatus r) "late") as [-> | ?];
    [cbn; f_equal; lia |].
  destruct (String.eqb_spec (effectiveStatus r) "leave") as [-> | ?];
    [cbn; f_equal; lia |].
  destruct (String.eqb_spec (effectiveStatus r) "ontime") as [e | ?];
    f_equal; lia.
Qed.

Lemma fold_countStatus_counts records stats :
  let stats' := fold_left countStatus records stats in
  totalPresent stats' = totalPresent stats + countWithStatus "present" records
  /\ totalAbsent stats' = totalAbsent stats + countWithStatus "absent" records
  /\ totalLate stats' = totalLate stats + countWithStatus "late" records
  /\ totalLeave stats' = totalLeave stats + countWithStatus "leave" records
  /\ totalOnTime stats' = totalOnTime stats + countWithStatus "ontime" records.
Proof.
  revert stats; induction records as [|r records IH]; intros stats; cbn zeta.
  - unfold countWithStatus; simpl. repeat split; lia.
  - simpl fold_left. specialize (IH (countStatus stats r)). cbn zeta in IH.
    rewrite !countWithStatus_cons.
    pose proof (f_equal totalPresent (countStatus_effective stats r)) as E1.
    pose proof (f_equal totalAbsent (countStatus_effective stats r)) as E2.
    pose proof (f_equal totalLate (countStatus_effective stats r)) as E3.
    pose proof (f_equal totalLeave (countStatus_effective stats r)) as E4.
    pose proof (f_equal totalOnTime (countStatus_effective stats r)) as E5.
    cbn [totalPresent totalAbsent totalLate totalLeave totalOnTime] in E1, E2, E3, E4, E5.
    destruct IH as (H1 & H2 & H3 & H4 & H5).
    repeat split; lia.
Qed.

Lemma afterCalculateStats_stats period pagination records :
  attendanceStats (afterCalculateStats period pagination records)
  = statsOf period pagination records.
Proof. reflexivity. Qed.

Lemma statsOf_fields period pagination records :
  let counted := fold_left countStatus records zeroStats in
  let stats := statsOf period pagination records in
  totalPresent stats = totalPresent counted
  /\ totalAbsent stats = totalAbsent counted
  /\ totalLate stats = totalLate counted
  /\ totalLeave stats = totalLeave counted
  /\ totalOnTime stats = totalOnTime counted.
Proof.
  cbn zeta. pose proof (statsOf_counters period pagination records) as H.
  unfold statusCounters in H. injection H as H1 H2 H3 H4 H5. auto.
Qed.

(** X1: each of the five counters is the number of records with that
    effective status, and the displayed "present" total is the number of
    records that are present or on time. *)
Theorem calculateStats_counts_by_status :
  forall period pagination records,
    let stats := statsOf period pagination records in
    totalPresent stats = countWithStatus "present" records
    /\ totalAbsent stats = countWithStatus "absent" records
    /\ totalLate stats = countWithStatus "late" records
    /\ totalLeave stats = countWithStatus "leave" records
    /\ totalOnTime stats = countWithStatus "ontime" records
    /\ getTotalPresent (afterCalculateStats period pagination records)
       = countWithStatus "present" records + countWithStatus "ontime" records.
Proof.
  intros period pagination records stats.
  destruct (statsOf_fields period pagination records) as (F1 & F2 & F3 & F4 & F5).
  destruct (fold_countStatus_counts records zeroStats) as (H1 & H2 & H3 & H4 & H5).
  cbn [totalPresent totalAbsent totalLate totalLeave totalOnTime zeroStats] in *.
  subst stats. unfold getTotalPresent. rewrite afterCalculateStats_stats.
  repeat split; lia.
Qed.

Lemma recognized_count r :
  (if (effectiveStatus r =? "present")%string then 1 else 0)
  + (if (effectiveStatus r =? "absent")%string then 1 else 0)
  + (if (effectiveStatus r =? "late")%string then 1 else 0)
  + (if (effectiveStatus r =? "leave")%string then 1 else 0)
  + (if (effectiveStatus r =? "ontime")%string then 1 else 0)
  = if recognized (effectiveStatus r) then 1 else 0.
Proof.
  unfold recognized, recognizedStatuses. cbn [existsb].
  destruct (String.eqb_spec (effectiveStatus r) "present") as [-> | ?]; [reflexivity |].
  destruct (String.eqb_spec (effectiveStatus r) "absent") as [-> | ?]; [reflexivity |].
  destruct (String.eqb_spec (effectiveStatus r) "late") as [-> | ?]; [reflexivity |].
  destruct (String.eqb_spec (effectiveStatus r) "leave") as [-> | ?]; [reflexivity |].
  destruct (String.eqb_spec (effectiveStatus r) "ontime") as [e | ?]; reflexivity.
Qed.

Lemma sum_counts_recognized records :
  countWithStatus "present" records + countWithStatus "absent" records
  + countWithStatus "late" records + countWithStatus "leave" records
  + countWithStatus "ontime" records
  = Z.of_nat (length (List.filter (fun r => recognized (effectiveStatus r)) records)).
Proof.
  induction records as [|r records IH]; [reflexivity |].
  rewrite !countWithStatus_cons. simpl List.filter.
  pose proof (recognized_count r) as Hr.
  destruct (recognized (effectiveStatus r)); simpl length; lia.
Qed.

Lemma filter_all_length {A : Type} (f : A -> bool) (l : list A) :
  length (List.filter f l) = length l <-> (forall x, In x l -> f x = true).
Proof.
  induction l as [|a l IH]; simpl.
  - split; [intros _ x [] | reflexivity].
  - pose proof (filter_length_le f l) as Hle.
    destruct (f a) eqn:E; simpl.
    + split.
      * intros H x [<- | Hin]; [assumption |]. apply IH; [lia | assumption].
      * intros H. f_equal. apply IH. intros x Hin. apply H. now right.
    + split; [lia |]. intros H. specialize (H a (or_introl eq_refl)). congruence.
Qed.

(** X2: the five counters add up to the number of records whose
    effective status is recognized: never more than the number of
    records, and exactly that number when no record has an unrecognized
    status. *)
Theorem calculateStats_counters_sum :
  forall period pagination records,
    let total := sumOfCounters (statsOf period pagination records) in
    total = Z.of_nat (length (List.filter (fun r => recognized (effectiveStatus r))
                                records))
    /\ total <= Z.of_nat (length records)
    /\ (total = Z.of_nat (length records)
        <-> forall r, In r records -> recognized (effectiveStatus r) = true).
Proof.
  intros period pagination records total.
  assert (Ht : total = Z.of_nat (length (List.filter
                         (fun r => recognized (effectiveStatus r)) records))).
  { subst total. unfold sumOfCounters.
    destruct (statsOf_fields period pagination records) as (F1 & F2 & F3 & F4 & F5).
    destruct (fold_countStatus_counts records zeroStats) as (H1 & H2 & H3 & H4 & H5).
    cbn [totalPresent totalAbsent totalLate totalLeave totalOnTime zeroStats] in *.
    rewrite <- sum_counts_recognized. lia. }
  split; [exact Ht | split].
  - rewrite Ht. apply inj_le, filter_length_le.
  - rewrite Ht, <- (filter_all_length (fun r => recognized (effectiveStatus r))).
    split; [intros H; now apply Nat2Z.inj | intros ->; reflexivity].
Qed.

End AttendanceCounters.

(** Statuses Present, Unknown, a missing status and OnTime: three of the
    four records are counted. *)
Lemma calculateStats_counters_sum_witness :
  let records := [Spec.mkRecord (Some "Present") "u1"; Spec.mkRecord (Some "Unknown") "u2";
                  Spec.mkRecord None "u3"; Spec.mkRecord (Some "OnTime") "u4"] in
  Spec.sumOfCounters (Spec.statsOf Attendance.Day None records) = 3
  /\ Spec.sumOfCounters (Spec.statsOf Attendance.Day None [Spec.mkRecord None "u3"]) = 1.
Proof.
  split.
  - rewrite (proj1 (calculateStats_counters_sum Attendance.Day None _)). reflexivity.
  - apply (proj2 (proj2 (calculateStats_counters_sum Attendance.Day None
                           [Spec.mkRecord None "u3"]))).
    intros r [<- | []]. reflexivity.
Defined.

(* ===================================================================== *)
(** * Hours, minutes, percentage and points of one day *)
(* ===================================================================== *)

Section DayFigures.
Import JS Spec.
Variable Date_parse : string -> option Z.

Lemma Qdiv_nonneg a b : (0 <= a)%Q -> (0 < b)%Q -> (0 <= a / b)%Q.
Proof.
  intros Ha Hb. apply Qle_shift_div_l; [assumption |]. now rewrite Qmult_0_l.
Qed.

Lemma Qfloor_nonneg x : (0 <= x)%Q -> 0 <= Qfloor x.
Proof. intros H. apply (Qfloor_resp_le 0 x) in H. exact H. Qed.

Lemma Qround_nonneg x : (0 <= x)%Q -> 0 <= Qround x.
Proof. intros H. unfold Qround. apply Qfloor_nonneg. lra. Qed.

Lemma Qmin_inject_Z a b :
  (Qmin (inject_Z a) (inject_Z b) == inject_Z (Z.min a b))%Q.
Proof.
  destruct (Z.le_ge_cases a b) as [Hle | Hge].
  - rewrite Z.min_l by assumption. apply Q.min_l. now rewrite <- Zle_Qle.
  - rewrite Z.min_r by lia. apply Q.min_r. rewrite <- Zle_Qle. lia.
Qed.

Lemma diffMs_nonneg start stop :
  Qltb (inject_Z stop - inject_Z start) 0 = false -> start <= stop.
Proof.
  intros H. apply Qltb_false in H. rewrite diffMs_Z in H.
  change 0%Q with (inject_Z 0) in H. rewrite <- Zle_Qle in H. lia.
Qed.

Lemma diffMs_negative start stop :
  stop < start -> Qltb (inject_Z stop - inject_Z start) 0 = true.
Proof.
  intros H. apply Qltb_true. rewrite diffMs_Z.
  change 0%Q with (inject_Z 0). rewrite <- Zlt_Qlt. lia.
Qed.

(** The remainder and the minutes of the code, on integers. *)
Lemma Qrem_code start stop :
  start <= stop ->
  (Qrem (inject_Z stop - inject_Z start) (1000 * 60 * 60)
   == inject_Z ((stop - start) mod 3600000))%Q.
Proof.
  intros Hle. unfold Qrem, Qtrunc.
  assert (Hpos : Qltb ((inject_Z stop - inject_Z start) / (1000 * 60 * 60)) 0 = false).
  { apply Qltb_false, Qdiv_nonneg; [| reflexivity].
    apply Qltb_false, (diffMs_not_negative _ _ Hle). }
  rewrite Hpos, flooredHours_code, flooredHours_div, diffMs_Z.
  change (1000 * 60 * 60)%Q with (inject_Z 3600000).
  unfold Qminus. rewrite <- inject_Z_mult, <- inject_Z_opp, <- inject_Z_plus.
  apply inject_Z_injective. rewrite Z.mod_eq by lia. lia.
Qed.

Lemma minutesPart_code start stop :
  start <= stop ->
  Qfloor (Qrem (inject_Z stop - inject_Z start) (1000 * 60 * 60) / (1000 * 60))
  = minutesPart start stop.
Proof.
  intros Hle. unfold minutesPart. rewrite Zdiv_Qdiv.
  apply Qfloor_comp. now rewrite (Qrem_code _ _ Hle).
Qed.

Lemma minutesPart_range start stop : 0 <= minutesPart start stop < 60.
Proof.
  unfold minutesPart.
  pose proof (Z.mod_pos_bound (stop - start) 3600000 ltac:(lia)) as Hm.
  split; [apply Z.div_pos; lia | apply Z.div_lt_upper_bound; lia].
Qed.

Lemma whole_minutes start stop :
  60 * flooredHours start stop + minutesPart start stop = (stop - start) / 60000.
Proof.
  rewrite flooredHours_div. unfold minutesPart.
  set (d := stop - start).
  pose proof (Z.div_mod d 3600000 ltac:(lia)) as Hd.
  assert (H : d / 60000 = (60 * (d / 3600000) * 60000 + d mod 3600000) / 60000).
  { f_equal. lia. }
  rewrite H, Z.div_add_l by lia. lia.
Qed.

Lemma truthy_false_empty s : truthy_string (Some s) = false -> (s =? "")%string = true.
Proof. unfold truthy_string. now rewrite negb_false_iff. Qed.

(** Settles a goal [f checkIn checkOut = zero] on an invalid pair [H],
    once [f] is unfolded. *)
Ltac on_invalid_pair H :=
  let ci := fresh "ci" in
  let co := fresh "co" in
  destruct H as [H | [H | (ci & co & -> & -> & H)]];
  [ match goal with
    | |- context [match ?x with Some _ => _ | None => _ end] =>
        destruct x as [ci|]; [| reflexivity]
    end;
    apply truthy_false_empty in H; rewrite H;
    match goal with
    | |- context [match ?y with Some _ => _ | None => _ end] =>
        destruct y; reflexivity
    end
  | match goal with
    | |- context [match ?x with Some _ => _ | None => _ end] =>
        destruct x as [ci|]; [| reflexivity]
    end;
    match goal with
    | |- context [match ?y with Some _ => _ | None => _ end] =>
        destruct y as [co|]; [| reflexivity]
    end;
    apply truthy_false_empty in H; rewrite H, orb_true_r; reflexivity
  | destruct ((ci =? "")%string || (co =? "")%string); [reflexivity |];
    let start := fresh "start" in
    let stop := fresh "stop" in
    let Hs := fresh "Hs" in
    let He := fresh "He" in
    let Hlt := fresh "Hlt" in
    destruct H as [H | [H | (start & stop & Hs & He & Hlt)]]; unfold getTime;
    [ rewrite H; reflexivity
    | rewrite H; destruct (Date_parse ci); reflexivity
    | rewrite Hs, He, (diffMs_negative _ _ Hlt); reflexivity ] ].

Lemma getAttendancePercentage_invalid checkIn checkOut :
  invalidPair Date_parse checkIn checkOut ->
  Attendance.getAttendancePercentage Date_parse checkIn checkOut = Num 0.
Proof. intros H. unfold Attendance.getAttendancePercentage. on_invalid_pair H. Qed.

Lemma getAttendancePoints_invalid checkIn checkOut :
  invalidPair Date_parse checkIn checkOut ->
  Attendance.getAttendancePoints Date_parse checkIn checkOut = Num 0.
Proof. intros H. unfold Attendance.getAttendancePoints. on_invalid_pair H. Qed.

Lemma getWorkingHours_invalid checkIn checkOut :
  invalidPair Date_parse checkIn checkOut ->
  Attendance.getWorkingHours Date_parse checkIn checkOut = "0H 0M".
Proof. intros H. unfold Attendance.getWorkingHours. on_invalid_pair H. Qed.

Lemma dashboard_hours_invalid checkIn checkOut :
  invalidPair Date_parse checkIn checkOut ->
  AdminDashboard.calculateWorkingHours Date_parse checkIn checkOut = "0h 0m".
Proof. intros H. unfold AdminDashboard.calculateWorkingHours. on_invalid_pair H. Qed.

(** Every pair is invalid or valid. *)
Lemma invalid_or_valid checkIn checkOut :
  invalidPair Date_parse checkIn checkOut
  \/ exists ci co start stop,
      checkIn = Some ci /\ checkOut = Some co
      /\ validPair Date_parse ci co start stop.
Proof.
  unfold invalidPair, validPair.
  destruct checkIn as [ci|]; [| now left; left].
  destruct checkOut as [co|]; [| now left; right; left].
  destruct (String.eqb_spec ci "") as [-> | Hci]; [now left; left |].
  destruct (String.eqb_spec co "") as [-> | Hco]; [now left; right; left |].
  destruct (Date_parse ci) as [start|] eqn:Hs;
    [| left; right; right; exists ci, co; auto].
  destruct (Date_parse co) as [stop|] eqn:He;
    [| left; right; right; exists ci, co; auto].
  destruct (Z.lt_ge_cases stop start) as [Hlt | Hge].
  - left; right; right. exists ci, co. repeat split; [].
    right; right. exists start, stop. auto.
  - right. exists ci, co, start, stop. auto 10.
Qed.

Lemma getAttendancePercentage_valid ci co start stop :
  validPair Date_parse ci co start stop ->
  Attendance.getAttendancePercentage Date_parse (Some ci) (Some co)
  = Num (Qmin (inject_Z (Qround ((inject_Z stop - inject_Z start)
                                  / (1000 * 60 * 60) / 8 * 100))) 100).
Proof.
  intros (Hci & Hco & Hs & He & Hle).
  unfold Attendance.getAttendancePercentage.
  rewrite (eqb_empty_false ci Hci), (eqb_empty_false co Hco).
  rewrite (getTime_parsed _ _ _ Hs), (getTime_parsed _ _ _ He).
  unfold orb. rewrite (diffMs_not_negative _ _ Hle). reflexivity.
Qed.

Lemma getWorkingHours_valid ci co start stop :
  validPair Date_parse ci co start stop ->
  Attendance.getWorkingHours Date_parse (Some ci) (Some co)
  = string_of_Z (flooredHours start stop) ++ "H "
    ++ string_of_Z (minutesPart start stop) ++ "M"
  /\ AdminDashboard.calculateWorkingHours Date_parse (Some ci) (Some co)
     = string_of_Z (flooredHours start stop) ++ "h "
       ++ string_of_Z (minutesPart start stop) ++ "m".
Proof.
  intros (Hci & Hco & Hs & He & Hle).
  unfold Attendance.getWorkingHours, AdminDashboard.calculateWorkingHours.
  rewrite (eqb_empty_false ci Hci), (eqb_empty_false co Hco).
  rewrite (getTime_parsed _ _ _ Hs), (getTime_parsed _ _ _ He).
  unfold orb. rewrite (diffMs_not_negative _ _ Hle).
  cbv zeta. now rewrite flooredHours_code, (minutesPart_code _ _ Hle).
Qed.

(** X3: the attendance percentage of the attendance page is a whole
    number between 0 and 100 on every input; it is 0 on an invalid pair
    and 100 from eight hours on. *)
Theorem getAttendancePercentage_range :
  forall checkIn checkOut,
    (exists p, 0 <= p <= 100
               /\ number_eq (Attendance.getAttendancePercentage Date_parse checkIn checkOut)
                    (Num (inject_Z p)))
    /\ (invalidPair Date_parse checkIn checkOut ->
        Attendance.getAttendancePercentage Date_parse checkIn checkOut = Num 0)
    /\ (forall ci co start stop,
          checkIn = Some ci -> checkOut = Some co ->
          validPair Date_parse ci co start stop ->
          8 * 3600000 <= stop - start ->
          number_eq (Attendance.getAttendancePercentage Date_parse checkIn checkOut)
            (Num 100)).
Proof.
  intros checkIn checkOut.
  assert (Hvalid : forall ci co start stop,
             validPair Date_parse ci co start stop ->
             let x := ((inject_Z stop - inject_Z start) / (1000 * 60 * 60) / 8 * 100)%Q in
             (0 <= x)%Q
             /\ number_eq (Attendance.getAttendancePercentage Date_parse (Some ci) (Some co))
                  (Num (inject_Z (Z.min (Qround x) 100)))).
  { intros ci co start stop Hv x.
    assert (Hx : (0 <= x)%Q).
    { destruct Hv as (_ & _ & _ & _ & Hle).
      pose proof (proj1 (Qltb_false _ _) (diffMs_not_negative _ _ Hle)) as Hd.
      subst x. apply Qmult_le_0_compat; [| discriminate].
      apply Qdiv_nonneg; [| reflexivity]. apply Qdiv_nonneg; [exact Hd | reflexivity]. }
    split; [exact Hx |].
    rewrite (getAttendancePercentage_valid _ _ _ _ Hv). fold x.
    change 100%Q with (inject_Z 100). apply Qmin_inject_Z. }
  split; [| split].
  - destruct (invalid_or_valid checkIn checkOut)
      as [Hinv | (ci & co & start & stop & -> & -> & Hv)].
    + exists 0. rewrite (getAttendancePercentage_invalid _ _ Hinv).
      split; [lia | reflexivity].
    + destruct (Hvalid ci co start stop Hv) as [Hx Heq].
      eexists; split; [| exact Heq].
      pose proof (Qround_nonneg _ Hx). lia.
  - apply getAttendancePercentage_invalid.
  - intros ci co start stop -> -> Hv Hlong.
    destruct (Hvalid ci co start stop Hv) as [Hx Heq].
    rewrite Z.min_r in Heq; [exact Heq |].
    change 100 with (Qround (inject_Z 100)). unfold Qround.
    apply Qfloor_resp_le. apply Qplus_le_l.
    assert (Hd : (inject_Z (8 * 3600000) <= inject_Z stop - inject_Z start)%Q).
    { rewrite diffMs_Z. now rewrite <- Zle_Qle. }
    change (inject_Z (8 * 3600000)) with (28800000%Q) in Hd.
    change (inject_Z 100) with 100%Q.
    set (d := (inject_Z stop - inject_Z start)%Q) in *.
    assert (Hx' : (d / (1000 * 60 * 60) / 8 * 100 == d / 288000)%Q) by field.
    rewrite Hx'. apply Qle_shift_div_l; [reflexivity |].
    exact Hd.
Qed.

(** X4: the attendance points of the attendance page are, on every
    input, 40 times a whole number of hours between 0 and 8; they are 0
    on an invalid pair. *)
Theorem getAttendancePoints_steps :
  forall checkIn checkOut,
    (exists k, 0 <= k <= 8
               /\ number_eq (Attendance.getAttendancePoints Date_parse checkIn checkOut)
                    (Num (inject_Z (40 * k))))
    /\ (invalidPair Date_parse checkIn checkOut ->
        Attendance.getAttendancePoints Date_parse checkIn checkOut = Num 0).
Proof.
  intros checkIn checkOut. split; [| apply getAttendancePoints_invalid].
  destruct (invalid_or_valid checkIn checkOut)
    as [Hinv | (ci & co & start & stop & -> & -> & Hv)].
  - exists 0. rewrite (getAttendancePoints_invalid _ _ Hinv).
    split; [lia | reflexivity].
  - exists (Z.min (flooredHours start stop) 8).
    assert (Hh : 0 <= flooredHours start stop).
    { rewrite flooredHours_div. destruct Hv as (_ & _ & _ & _ & Hle).
      apply Z.div_pos; lia. }
    split; [lia |].
    rewrite (component_points_valid Date_parse _ _ _ _ Hv), flooredHours_code.
    unfold number_eq. rewrite Qmin_points. apply inject_Z_injective. lia.
Qed.

(** X5: the points of the service are [NaN] exactly when both strings
    are non-empty and one of them does not parse; on every other input
    the service and the attendance page give the same points. *)
Theorem service_points_agree :
  forall checkIn checkOut,
    let service :=
      AttendanceService.calculateAttendancePoints Date_parse checkIn checkOut None in
    (service = NaN
     <-> exists ci co, checkIn = Some ci /\ checkOut = Some co
                       /\ ci <> "" /\ co <> ""
                       /\ (Date_parse ci = None \/ Date_parse co = None))
    /\ (service <> NaN ->
        number_eq service (Attendance.getAttendancePoints Date_parse checkIn checkOut)).
Proof.
  intros checkIn checkOut service.
  assert (Hzero : AttendanceService.calculateWorkingHours Date_parse checkIn checkOut
                  = AttendanceService.zeroDuration ->
                  service = Num (Qmin (0 * 40) 320)).
  { intros H. subst service. unfold AttendanceService.calculateAttendancePoints.
    now rewrite H. }
  destruct checkIn as [ci|].
  2:{ rewrite Hzero by reflexivity. split; [split |].
      - discriminate.
      - intros (ci & co & H & _); discriminate.
      - intros _. reflexivity. }
  destruct checkOut as [co|].
  2:{ rewrite Hzero by reflexivity. split; [split |].
      - discriminate.
      - intros (ci' & co & _ & H & _); discriminate.
      - intros _. reflexivity. }
  destruct (String.eqb_spec ci "") as [-> | Hci].
  { rewrite Hzero by reflexivity. split; [split |].
    - discriminate.
    - intros (ci' & co' & [= <-] & _ & H & _). congruence.
    - intros _. reflexivity. }
  destruct (String.eqb_spec co "") as [-> | Hco].
  { rewrite Hzero.
    2:{ apply calculateWorkingHours_null. right. reflexivity. }
    split; [split |].
    - discriminate.
    - intros (ci' & co' & _ & [= <-] & _ & H & _). congruence.
    - intros _. unfold Attendance.getAttendancePoints.
      now rewrite orb_true_r. }
  destruct (Date_parse ci) as [start|] eqn:Hs.
  2:{ assert (Hn : service = NaN).
      { subst service. unfold AttendanceService.calculateAttendancePoints.
        rewrite (calculateWorkingHours_unparseable_hours Date_parse ci co Hci Hco (or_introl Hs)).
        reflexivity. }
      rewrite Hn. split; [split; [| reflexivity] | congruence].
      intros _. exists ci, co. auto 10. }
  destruct (Date_parse co) as [stop|] eqn:He.
  2:{ assert (Hn : service = NaN).
      { subst service. unfold AttendanceService.calculateAttendancePoints.
        rewrite (calculateWorkingHours_unparseable_hours Date_parse ci co Hci Hco (or_intror He)).
        reflexivity. }
      rewrite Hn. split; [split; [| reflexivity] | congruence].
      intros _. exists ci, co. auto 10. }
  assert (Hnot : ~ (exists ci' co', Some ci = Some ci' /\ Some co = Some co'
                      /\ ci' <> "" /\ co' <> ""
                      /\ (Date_parse ci' = None \/ Date_parse co' = None))).
  { intros (ci' & co' & [= <-] & [= <-] & _ & _ & [H | H]); congruence. }
  destruct (Z.lt_ge_cases stop start) as [Hlt | Hge].
  - rewrite Hzero by (now apply (calculateWorkingHours_reversed Date_parse ci co start stop)).
    split; [split; [discriminate | intros H; now apply Hnot in H] |].
    intros _.
    rewrite getAttendancePoints_invalid; [reflexivity |].
    right; right. exists ci, co. repeat split; [].
    right; right. exists start, stop. auto.
  - assert (Hv : validPair Date_parse ci co start stop) by (unfold validPair; auto).
    subst service. rewrite (service_points_valid Date_parse _ _ _ _ Hv).
    rewrite (component_points_valid Date_parse _ _ _ _ Hv).
    split; [split; [discriminate | intros H; now apply Hnot in H] |].
    intros _. reflexivity.
Qed.

(** X6: on every input the attendance page and the dashboard print
    the same whole hours and minutes (with "H", "M" and "h", "m"), the
    hours not negative and the minutes between 0 and 59; on a valid pair
    they add up to the whole minutes between check-in and check-out, and
    on an invalid pair both are 0. *)
Theorem working_hours_display :
  forall checkIn checkOut,
    (exists h m,
        0 <= h /\ 0 <= m < 60
        /\ Attendance.getWorkingHours Date_parse checkIn checkOut
           = string_of_Z h ++ "H " ++ string_of_Z m ++ "M"
        /\ AdminDashboard.calculateWorkingHours Date_parse checkIn checkOut
           = string_of_Z h ++ "h " ++ string_of_Z m ++ "m"
        /\ forall ci co start stop,
            checkIn = Some ci -> checkOut = Some co ->
            validPair Date_parse ci co start stop ->
            60 * h + m = (stop - start) / 60000)
    /\ (invalidPair Date_parse checkIn checkOut ->
        Attendance.getWorkingHours Date_parse checkIn checkOut = "0H 0M"
        /\ AdminDashboard.calculateWorkingHours Date_parse checkIn checkOut = "0h 0m").
Proof.
  intros checkIn checkOut. split.
  - destruct (invalid_or_valid checkIn checkOut)
      as [Hinv | (ci & co & start & stop & -> & -> & Hv)].
    + exists 0, 0.
      rewrite (getWorkingHours_invalid _ _ Hinv), (dashboard_hours_invalid _ _ Hinv).
      repeat split; try lia.
      intros ci co start stop -> -> (Hci & Hco & Hs & He & Hle). exfalso.
      destruct Hinv as [H | [H | (ci' & co' & [= <-] & [= <-] & H)]].
      * apply truthy_false_empty in H. rewrite (eqb_empty_false ci Hci) in H. discriminate.
      * apply truthy_false_empty in H. rewrite (eqb_empty_false co Hco) in H. discriminate.
      * destruct H as [H | [H | (s1 & s2 & Hs' & He' & Hlt)]]; try congruence.
        rewrite Hs in Hs'. rewrite He in He'. injection Hs' as <-. injection He' as <-. lia.
    + exists (flooredHours start stop), (minutesPart start stop).
      destruct (getWorkingHours_valid ci co start stop Hv) as [Ha Hd].
      destruct Hv as (Hci & Hco & Hs & He & Hle).
      split; [rewrite flooredHours_div; apply Z.div_pos; lia |].
      split; [apply minutesPart_range |].
      split; [exact Ha | split; [exact Hd |]].
      intros ci' co' start' stop' [= <-] [= <-] (_ & _ & Hs' & He' & _).
      rewrite Hs in Hs'. rewrite He in He'. injection Hs' as <-. injection He' as <-.
      apply whole_minutes.
  - intros Hinv. split;
      [now apply getWorkingHours_invalid | now apply dashboard_hours_invalid].
Qed.

(** X7: on a valid pair the service returns the whole hours, the whole
    minutes left over (between 0 and 59), and as total the whole minutes
    between check-in and check-out divided by 60. *)
Theorem calculateWorkingHours_valid :
  forall ci co start stop,
    validPair Date_parse ci co start stop ->
    let w := AttendanceService.calculateWorkingHours Date_parse (Some ci) (Some co) in
    AttendanceService.hours w = Num (inject_Z (flooredHours start stop))
    /\ AttendanceService.minutes w = Num (inject_Z (minutesPart start stop))
    /\ 0 <= flooredHours start stop
    /\ 0 <= minutesPart start stop < 60
    /\ number_eq (AttendanceService.total w)
         (Num (inject_Z ((stop - start) / 60000) / 60)).
Proof.
  intros ci co start stop (Hci & Hco & Hs & He & Hle) w.
  assert (Hw : w = {| AttendanceService.hours := Num (inject_Z (flooredHours start stop));
                      AttendanceService.minutes := Num (inject_Z (minutesPart start stop));
                      AttendanceService.total :=
                        Num (inject_Z (flooredHours start stop)
                             + inject_Z (minutesPart start stop) / 60) |}).
  { subst w. unfold AttendanceService.calculateWorkingHours.
    rewrite (eqb_empty_false ci Hci), (eqb_empty_false co Hco).
    rewrite (getTime_parsed _ _ _ Hs), (getTime_parsed _ _ _ He).
    unfold orb, sub, div, rem, add, lift2, lt, Math_floor.
    rewrite (diffMs_not_negative _ _ Hle).
    now rewrite flooredHours_code, (minutesPart_code _ _ Hle). }
  rewrite Hw. cbn [AttendanceService.hours AttendanceService.minutes
                   AttendanceService.total].
  split; [reflexivity | split; [reflexivity | split; [| split]]].
  - rewrite flooredHours_div. apply Z.div_pos; lia.
  - apply minutesPart_range.
  - unfold number_eq. rewrite <- whole_minutes, inject_Z_plus, inject_Z_mult.
    change (inject_Z 60) with 60%Q. field.
Qed.

End DayFigures.

(** 09:00 to 17:30 is 100 percent; a missing check-out is 0 percent. *)
Lemma getAttendancePercentage_range_witness :
  JS.number_eq
    (Attendance.getAttendancePercentage JS.iso_parse
       (Some "2024-01-01T09:00:00Z") (Some "2024-01-01T17:30:00Z"))
    (JS.Num 100)
  /\ Attendance.getAttendancePercentage JS.iso_parse
       (Some "2024-01-01T09:00:00Z") None = JS.Num 0.
Proof.
  split.
  - apply (proj2 (proj2 (getAttendancePercentage_range JS.iso_parse
                           (Some "2024-01-01T09:00:00Z") (Some "2024-01-01T17:30:00Z")))
             "2024-01-01T09:00:00Z" "2024-01-01T17:30:00Z"
             1704099600000 1704130200000);
      [reflexivity | reflexivity | | lia].
    repeat split; try discriminate.
  - apply (proj1 (proj2 (getAttendancePercentage_range JS.iso_parse
                           (Some "2024-01-01T09:00:00Z") None))).
    right; left. reflexivity.
Defined.

(** A check-out before the check-in earns no points. *)
Lemma getAttendancePoints_steps_witness :
  Attendance.getAttendancePoints JS.iso_parse
    (Some "2024-01-01T17:30:00Z") (Some "2024-01-01T09:00:00Z") = JS.Num 0.
Proof.
  apply (proj2 (getAttendancePoints_steps JS.iso_parse
                  (Some "2024-01-01T17:30:00Z") (Some "2024-01-01T09:00:00Z"))).
  right; right. exists "2024-01-01T17:30:00Z", "2024-01-01T09:00:00Z".
  repeat split. right; right. exists 1704130200000, 1704099600000.
  repeat split.
Defined.

(** An unparseable check-in gives [NaN] in the service; 09:00 to 11:30
    gives the 80 points of the attendance page. *)
Lemma service_points_agree_witness :
  AttendanceService.calculateAttendancePoints JS.iso_parse
    (Some "yesterday") (Some "2024-01-01T17:30:00Z") None = JS.NaN
  /\ JS.number_eq
       (AttendanceService.calculateAttendancePoints JS.iso_parse
          (Some "2024-01-01T09:00:00Z") (Some "2024-01-01T11:30:00Z") None)
       (Attendance.getAttendancePoints JS.iso_parse
          (Some "2024-01-01T09:00:00Z") (Some "2024-01-01T11:30:00Z")).
Proof.
  split.
  - apply (proj1 (service_points_agree JS.iso_parse
                    (Some "yesterday") (Some "2024-01-01T17:30:00Z"))).
    exists "yesterday", "2024-01-01T17:30:00Z".
    repeat split; try discriminate. left; reflexivity.
  - apply (proj2 (service_points_agree JS.iso_parse
                    (Some "2024-01-01T09:00:00Z") (Some "2024-01-01T11:30:00Z"))).
    discriminate.
Defined.

(** 09:00 to 17:30 is shown as 8 hours 30 minutes on both pages. *)
Lemma working_hours_display_witness :
  exists h m,
    Attendance.getWorkingHours JS.iso_parse
      (Some "2024-01-01T09:00:00Z") (Some "2024-01-01T17:30:00Z")
    = JS.string_of_Z h ++ "H " ++ JS.string_of_Z m ++ "M"
    /\ AdminDashboard.calculateWorkingHours JS.iso_parse
         (Some "2024-01-01T09:00:00Z") (Some "2024-01-01T17:30:00Z")
       = JS.string_of_Z h ++ "h " ++ JS.string_of_Z m ++ "m"
    /\ 60 * h + m = 510.
Proof.
  destruct (proj1 (working_hours_display JS.iso_parse
                     (Some "2024-01-01T09:00:00Z") (Some "2024-01-01T17:30:00Z")))
    as (h & m & _ & _ & Ha & Hd & Hmin).
  exists h, m. split; [exact Ha | split; [exact Hd |]].
  apply (Hmin "2024-01-01T09:00:00Z" "2024-01-01T17:30:00Z"
           1704099600000 1704130200000); [reflexivity | reflexivity |].
  repeat split; try discriminate.
Defined.

(** 09:00 to 17:30: 8 hours, 30 minutes, 510 / 60 hours in total. *)
Lemma calculateWorkingHours_valid_witness :
  let w := AttendanceService.calculateWorkingHours JS.iso_parse
             (Some "2024-01-01T09:00:00Z") (Some "2024-01-01T17:30:00Z") in
  AttendanceService.hours w = JS.Num 8
  /\ AttendanceService.minutes w = JS.Num 30
  /\ JS.number_eq (AttendanceService.total w) (JS.Num (510 / 60)).
Proof.
  assert (Hv : Spec.validPair JS.iso_parse "2024-01-01T09:00:00Z"
                 "2024-01-01T17:30:00Z" 1704099600000 1704130200000).
  { repeat split; try discriminate. }
  destruct (calculateWorkingHours_valid JS.iso_parse _ _ _ _ Hv)
    as (Hh & Hm & _ & _ & Ht).
  split; [exact Hh | split; [exact Hm | exact Ht]].
Defined.

(* ===================================================================== *)
(** * Status badges and break indicators *)
(* ===================================================================== *)

Section Badges.
Import JS Spec.

Lemma toLowerCase_empty s : toLowerCase s = "" -> s = "".
Proof. destruct s; [reflexivity | discriminate]. Qed.

(** X8: the attendance page and the dashboard give every status the
    same badge; the service gives the same badge too, except for the
    status [ontime] (in any letter case), which the other two show as a
    success and the service as secondary. *)
Theorem status_badges_agree :
  forall status : option string,
    Attendance.getStatusBadgeClass status = AdminDashboard.getStatusBadgeClass status
    /\ (option_map toLowerCase status <> Some "ontime" ->
        AttendanceService.getStatusBadgeClass status
        = Attendance.getStatusBadgeClass status)
    /\ (option_map toLowerCase status = Some "ontime" ->
        AttendanceService.getStatusBadgeClass status = "badge-secondary"
        /\ Attendance.getStatusBadgeClass status = "badge-success").
Proof.
  intros [s|]; [| repeat split; intros; discriminate].
  unfold Attendance.getStatusBadgeClass, AdminDashboard.getStatusBadgeClass,
    AttendanceService.getStatusBadgeClass. cbn [option_map].
  split; [| split].
  - destruct (String.eqb_spec s "") as [-> | _]; reflexivity.
  - intros Hne.
    destruct (String.eqb_spec (toLowerCase s) "present"); [reflexivity |].
    destruct (String.eqb_spec (toLowerCase s) "ontime"); [congruence | reflexivity].
  - intros [= ->]. split; reflexivity.
Qed.

(** X9: the attendance page shows no break status exactly for a record
    that is not seated and on no break, or seated without a check-in;
    "On Seat" is shown only for seated records, and a record that is not
    seated and on a break always has a status. *)
Theorem getBreakStatus_none :
  forall record : Attendance.AttendanceRecord,
    (Attendance.getBreakStatus record = None
     <-> (Attendance.isSeated record = false /\ Attendance.currentBreak record = None)
         \/ (Attendance.isSeated record = true
             /\ truthy_string (Attendance.checkIn record) = false))
    /\ (forall b, Attendance.getBreakStatus record = Some b ->
                  (Attendance.bs_type b = "On Seat" <-> Attendance.isSeated record = true)).
Proof.
  intros record. unfold Attendance.getBreakStatus.
  destruct (Attendance.isSeated record) eqn:Hseat; cbn [andb].
  - destruct (truthy_string (Attendance.checkIn record)) eqn:Hin; split.
    + split; [discriminate | intros [[H _] | [_ H]]; discriminate].
    + intros b [= <-]. split; reflexivity.
    + split; [intros _; right; auto | reflexivity].
    + intros b H; discriminate.
  - destruct (Attendance.currentBreak record) as [br|] eqn:Hbr; split.
    + split.
      * repeat match goal with
               | |- context [if ?c then _ else _] => destruct c
               end; discriminate.
      * intros [[_ H] | [H _]]; discriminate.
    + intros b H. split; [| discriminate].
      repeat match type of H with
             | context [if ?c then _ else _] => destruct c
             end; injection H as <-; discriminate.
    + split; [intros _; left; auto | reflexivity].
    + intros b H; discriminate.
Qed.

(** X10: on the dashboard the break icon follows the break status: the
    cup for "Tea Break", the pause sign for "On Break", and the laptop
    exactly when there is no current break, that is when the status is
    "On Seat" or empty. *)
Theorem dashboard_break_icon_matches_status :
  forall record : AdminDashboard.AttendanceRow,
    (AdminDashboard.getBreakIcon record = "bi-cup-hot-fill"
     <-> AdminDashboard.getBreakStatus record = "Tea Break")
    /\ (AdminDashboard.getBreakIcon record = "bi-pause-circle"
        <-> AdminDashboard.getBreakStatus record = "On Break")
    /\ (AdminDashboard.getBreakIcon record = "bi-laptop"
        <-> AdminDashboard.ar_currentBreak record = None)
    /\ (AdminDashboard.ar_currentBreak record = None
        <-> AdminDashboard.getBreakBadgeClass record = "text-primary")
    /\ (AdminDashboard.ar_currentBreak record = None
        <-> AdminDashboard.getBreakStatus record = "On Seat"
            \/ AdminDashboard.getBreakStatus record = "").
Proof.
  intros record.
  unfold AdminDashboard.getBreakIcon, AdminDashboard.getBreakStatus,
    AdminDashboard.getBreakBadgeClass.
  destruct (AdminDashboard.ar_currentBreak record) as [b|].
  - destruct (toLowerCase (or_string (AdminDashboard.cb_type b) "break") =? "tea")%string;
      repeat split; try discriminate; try reflexivity;
      intros H; try discriminate; destruct H; discriminate.
  - destruct (AdminDashboard.ar_isSeated record);
      repeat split; try discriminate; try reflexivity; auto.
Qed.

End Badges.

(** "OnTime" is a success on the pages and secondary in the service. *)
Lemma status_badges_agree_witness :
  AttendanceService.getStatusBadgeClass (Some "OnTime") = "badge-secondary"
  /\ Attendance.getStatusBadgeClass (Some "OnTime") = "badge-success"
  /\ AttendanceService.getStatusBadgeClass (Some "Late")
     = Attendance.getStatusBadgeClass (Some "Late").
Proof.
  destruct (proj2 (proj2 (status_badges_agree (Some "OnTime"))) eq_refl) as [H1 H2].
  split; [exact H1 | split; [exact H2 |]].
  apply (proj1 (proj2 (status_badges_agree (Some "Late")))). discriminate.
Defined.

(** A seated record without check-in has no break status. *)
Lemma getBreakStatus_none_witness :
  Attendance.getBreakStatus
    {| Attendance.record_id := ""; Attendance.date := "";
       Attendance.checkIn := None; Attendance.checkOut := None;
       Attendance.status := None; Attendance.isSeated := true;
       Attendance.currentBreak := None; Attendance.breaks := nil;
       Attendance.user := {| Attendance.user_id := ""; Attendance.firstName := "";
                             Attendance.lastName := ""; Attendance.employeeId := "" |} |}
  = None.
Proof.
  apply (proj1 (getBreakStatus_none _)). right. split; reflexivity.
Defined.

(** A tea break shows the cup. *)
Lemma dashboard_break_icon_matches_status_witness :
  let record := {| AdminDashboard.ar_checkIn := None; AdminDashboard.ar_checkOut := None;
                   AdminDashboard.ar_status := None; AdminDashboard.ar_isSeated := false;
                   AdminDashboard.ar_currentBreak :=
                     Some {| AdminDashboard.cb_type := Some "Tea" |} |} in
  AdminDashboard.getBreakIcon record = "bi-cup-hot-fill".
Proof.
  intros record.
  apply (proj1 (dashboard_break_icon_matches_status record)). reflexivity.
Defined.

(* ===================================================================== *)
(** * The staff profile: pages of tasks *)
(* ===================================================================== *)

Section TaskPages.
Import JS Spec Staffprofile.

Lemma countFrom_length start n : length (countFrom start n) = n.
Proof. revert start; induction n as [|n IH]; intros start; simpl; [reflexivity | now rewrite IH]. Qed.

Lemma countFrom_In start n p :
  In p (countFrom start n) <-> start <= p < start + Z.of_nat n.
Proof.
  revert start; induction n as [|n IH]; intros start; simpl.
  - split; [intros [] | lia].
  - rewrite IH. lia.
Qed.

Lemma range_length start stop :
  Z.of_nat (length (range start stop)) = Z.max 0 (stop - start + 1).
Proof. unfold range. rewrite countFrom_length. lia. Qed.

Lemma range_In start stop p : In p (range start stop) <-> start <= p <= stop.
Proof. unfold range. rewrite countFrom_In. lia. Qed.

(** The bounds of the window of [paginationPages]. *)
Lemma paginationPages_range c :
  exists first last,
    paginationPages c = range first last
    /\ 1 <= first /\ last <= totalPages c /\ last - first <= 4
    /\ (1 <= currentPage c <= totalPages c ->
        first <= currentPage c <= last
        /\ last - first + 1 = Z.min 5 (totalPages c)).
Proof.
  unfold paginationPages. cbv zeta.
  change (Qfloor (inject_Z 5 / 2)) with 2.
  set (T := totalPages c). set (cur := currentPage c).
  destruct (Z.ltb_spec (Z.min T (Z.max 1 (cur - 2) + 5 - 1) - Z.max 1 (cur - 2)) (5 - 1)).
  - eexists _, _. split; [reflexivity |]. lia.
  - eexists _, _. split; [reflexivity |]. lia.
Qed.

(** X11: the page window of the task list holds at most five pages,
    consecutive and ascending, all between 1 and the number of pages;
    when the current page is itself in that range the window contains it
    and holds five pages, or all pages when there are fewer. *)
Theorem paginationPages_window :
  forall c : Component,
    let pages := paginationPages c in
    (length pages <= 5)%nat
    /\ (forall p, In p pages -> 1 <= p <= totalPages c)
    /\ (exists first, pages = countFrom first (length pages))
    /\ (1 <= currentPage c <= totalPages c ->
        In (currentPage c) pages
        /\ Z.of_nat (length pages) = Z.min 5 (totalPages c)).
Proof.
  intros c pages.
  destruct (paginationPages_range c) as (first & last & Hp & H1 & HT & H4 & Hcur).
  subst pages. rewrite Hp.
  pose proof (range_length first last) as Hlen.
  split; [lia | split; [| split]].
  - intros p Hin. apply range_In in Hin. lia.
  - exists first. unfold range. now rewrite countFrom_length.
  - intros Hc. destruct (Hcur Hc) as [Hin Hn].
    split; [apply range_In; lia | lia].
Qed.




End TaskPages.

(** Page 4 of 7 pages (130 tasks): the window is 2 to 6. *)
Lemma paginationPages_window_witness :
  Staffprofile.paginationPages (Spec.profileAt 4 130) = [2; 3; 4; 5; 6]
  /\ In 4 (Staffprofile.paginationPages (Spec.profileAt 4 130))
  /\ Z.of_nat (length (Staffprofile.paginationPages (Spec.profileAt 4 130))) = 5.
Proof.
  split; [reflexivity |].
  apply (proj2 (proj2 (proj2 (paginationPages_window (Spec.profileAt 4 130))))).
  vm_compute. split; discriminate.
Defined.


(* ===================================================================== *)
(** * The staff profile: hours and performance *)
(* ===================================================================== *)

Section ProfileFigures.
Import JS Spec Staffprofile.


(** Linear arithmetic with divisions by the constants of the code. *)
Ltac qlra :=
  unfold Qdiv in *;
  change (/ 60)%Q with (1 # 60)%Q in *;
  change (/ 2)%Q with (1 # 2)%Q in *;
  lra.



Lemma Qround_le_100 x : (x <= 100)%Q -> Qround x <= 100.
Proof.
  intros H. unfold Qround. change 100 with (Qfloor (100 + (1 # 2))).
  apply Qfloor_resp_le. lra.
Qed.

(** X14: [calculateStats] of the staff profile only writes the absent
    days and the performance: the absent days lie between 0 and the
    number of attendance rows; with no tasks the performance is half the
    weekly percentage, rounded; with the completed tasks between 0 and
    the total and the weekly percentage between 0 and 100 the
    performance lies between 0 and 100. *)
Theorem profile_performance_bounds :
  forall c : Component,
    let c' := calculateStats c in
    0 <= st_absentDays (stats c') <= Z.of_nat (length (attendance c))
    /\ (currentPage c' = currentPage c /\ totalTasks c' = totalTasks c
        /\ attendance c' = attendance c /\ weeklyPercentage c' = weeklyPercentage c
        /\ st_totalTasks (stats c') = st_totalTasks (stats c)
        /\ st_tasksCompleted (stats c') = st_tasksCompleted (stats c)
        /\ st_overdueTasks (stats c') = st_overdueTasks (stats c)
        /\ st_inProgress (stats c') = st_inProgress (stats c))
    /\ (st_totalTasks (stats c) <= 0 ->
        st_performance (stats c') = Qround (inject_Z (weeklyPercentage c) / 2))
    /\ (0 <= st_tasksCompleted (stats c) <= st_totalTasks (stats c) ->
        0 <= weeklyPercentage c <= 100 ->
        0 <= st_performance (stats c') <= 100).
Proof.
  intros c c'. subst c'. unfold calculateStats. cbv zeta.
  cbn [stats st_absentDays st_performance currentPage totalTasks attendance
       weeklyPercentage st_totalTasks st_tasksCompleted st_overdueTasks st_inProgress].
  split; [| split; [| split]].
  - split; [lia |]. apply inj_le, filter_length_le.
  - repeat split.
  - intros Hno. destruct (Z.ltb_spec 0 (st_totalTasks (stats c))); [lia |].
    apply Qround_comp. field.
  - intros Hdone Hweek.
    assert (Hw0 : (0 <= inject_Z (weeklyPercentage c))%Q).
    { change 0%Q with (inject_Z 0). rewrite <- Zle_Qle. lia. }
    assert (Hw1 : (inject_Z (weeklyPercentage c) <= 100)%Q).
    { change 100%Q with (inject_Z 100). rewrite <- Zle_Qle. lia. }
    destruct (Z.ltb_spec 0 (st_totalTasks (stats c))) as [Hpos | Hnone].
    + set (done := inject_Z (st_tasksCompleted (stats c))).
      set (all := inject_Z (st_totalTasks (stats c))).
      assert (Hall : (0 < all)%Q).
      { subst all. change 0%Q with (inject_Z 0). rewrite <- Zlt_Qlt. lia. }
      assert (Hr0 : (0 <= done / all)%Q).
      { apply Qdiv_nonneg; [| exact Hall].
        subst done. change 0%Q with (inject_Z 0). rewrite <- Zle_Qle. lia. }
      assert (Hr1 : (done / all <= 1)%Q).
      { apply Qle_shift_div_r; [exact Hall |]. rewrite Qmult_1_l.
        subst done all. rewrite <- Zle_Qle. lia. }
      set (r := (done / all)%Q) in *.
      split; [apply Qround_nonneg | apply Qround_le_100]; qlra.
    + split; [apply Qround_nonneg | apply Qround_le_100]; qlra.
Qed.

(** X15: the day-rank suffix is empty exactly for a missing rank and
    for rank 0; it is "th" for every negative rank; for positive ranks
    it only depends on the last two digits. *)
Theorem getDayRankSuffix_cases :
  forall rank : option Z,
    (getDayRankSuffix rank = "" <-> rank = None \/ rank = Some 0)
    /\ (forall r, rank = Some r -> r < 0 -> getDayRankSuffix rank = "th")
    /\ (forall r, rank = Some r -> 0 < r ->
                  getDayRankSuffix (Some (r + 100)) = getDayRankSuffix rank).
Proof.
  intros rank. split; [| split].
  - destruct rank as [r|]; [| split; auto].
    unfold getDayRankSuffix. destruct (Z.eqb_spec r 0) as [-> | Hr].
    + split; auto.
    + split; [| intros [H | [= H]]; [discriminate | contradiction]].
      repeat match goal with
             | |- context [if ?b then _ else _] => destruct b
             end; discriminate.
  - intros r -> Hneg. unfold getDayRankSuffix.
    destruct (Z.eqb_spec r 0); [lia |].
    assert (Hrem : forall b, 0 < b -> Z.rem r b <= 0).
    { intros b Hb. rewrite <- (Z.opp_involutive r), Z.rem_opp_l by lia.
      pose proof (Z.rem_bound_pos (- r) b ltac:(lia) ltac:(lia)). lia. }
    pose proof (Hrem 100 ltac:(lia)) as H100.
    pose proof (Hrem 10 ltac:(lia)) as H10.
    destruct (Z.leb_spec 11 (Z.rem r 100)); [lia |]. cbn [andb].
    destruct (Z.eqb_spec (Z.rem r 10) 1); [lia |].
    destruct (Z.eqb_spec (Z.rem r 10) 2); [lia |].
    destruct (Z.eqb_spec (Z.rem r 10) 3); [lia | reflexivity].
  - intros r -> Hpos. unfold getDayRankSuffix.
    destruct (Z.eqb_spec (r + 100) 0); [lia |].
    destruct (Z.eqb_spec r 0); [lia |].
    rewrite !Z.rem_mod_nonneg by lia.
    replace ((r + 100) mod 100) with (r mod 100)
      by (rewrite <- (Z.mod_add r 1 100) by lia; f_equal; lia).
    replace ((r + 100) mod 10) with (r mod 10)
      by (rewrite <- (Z.mod_add r 10 10) by lia; f_equal; lia).
    reflexivity.
Qed.

End ProfileFigures.


(** Three of four tasks done and a weekly 80 percent. *)
Lemma profile_performance_bounds_witness :
  let c := {| Staffprofile.currentPage := 1; Staffprofile.totalTasks := 4;
              Staffprofile.isLoadingTasks := false; Staffprofile.attendance := nil;
              Staffprofile.weeklyPercentage := 80;
              Staffprofile.stats :=
                {| Staffprofile.st_totalTasks := 4; Staffprofile.st_tasksCompleted := 3;
                   Staffprofile.st_overdueTasks := 0; Staffprofile.st_inProgress := 1;
                   Staffprofile.st_absentDays := 0;
                   Staffprofile.st_performance := 0 |} |} in
  0 <= Staffprofile.st_performance (Staffprofile.stats (Staffprofile.calculateStats c))
    <= 100.
Proof.
  intros c.
  apply (proj2 (proj2 (proj2 (profile_performance_bounds c)))); simpl; lia.
Defined.

(** Rank 121 has the suffix of rank 21, and rank -1 has "th". *)
Lemma getDayRankSuffix_cases_witness :
  Staffprofile.getDayRankSuffix (Some (21 + 100)) = Staffprofile.getDayRankSuffix (Some 21)
  /\ Staffprofile.getDayRankSuffix (Some (-1)) = "th"
  /\ Staffprofile.getDayRankSuffix None = "".
Proof.
  split; [| split].
  - apply (proj2 (proj2 (getDayRankSuffix_cases (Some 21))) 21); [reflexivity | lia].
  - apply (proj1 (proj2 (getDayRankSuffix_cases (Some (-1)))) (-1)); [reflexivity | lia].
  - apply (proj1 (getDayRankSuffix_cases None)). now left.
Defined.

(* ===================================================================== *)
(** * The dashboard: figures of an employee, the rows shown, the clock *)
(* ===================================================================== *)

Section DashboardFigures.
Import JS Spec AdminDashboard.


Lemma In_firstn {A : Type} (x : A) n l : In x (firstn n l) -> In x l.
Proof. intros H. rewrite <- (firstn_skipn n l). apply in_or_app. now left. Qed.






(** X17: the employees shown on the dashboard are the first six that
    are not deactivated, in the order of the list: at most six, every
    one of them from the list and not deactivated, and all of the
    active ones when there are at most six. *)
Theorem active_employees_display :
  forall employees : list Employee,
    let active := List.filter isActive employees in
    let shown := getActiveEmployeesForDisplay employees in
    length shown = Nat.min 6 (length active)
    /\ (exists rest, active = (shown ++ rest)%list)
    /\ (forall e, In e shown -> In e employees /\ e_deactivated e <> Some true)
    /\ ((length active <= 6)%nat ->
        forall e, In e employees -> e_deactivated e <> Some true -> In e shown).
Proof.
  intros employees active shown. subst shown. unfold getActiveEmployeesForDisplay.
  fold active. destruct (Array_slice_prefix 6 active) as [Hfirst Happ].
  split; [| split; [| split]].
  - rewrite Hfirst. apply length_firstn.
  - exists (skipn 6 active). now symmetry.
  - intros e He. rewrite Hfirst in He. apply In_firstn in He.
    subst active. apply filter_In in He as [Hin Hact]. split; [exact Hin |].
    intros Hd. unfold isActive in Hact. rewrite Hd in Hact. discriminate.
  - intros Hlen e Hin Hd. rewrite Hfirst, firstn_all2 by exact Hlen.
    subst active. apply filter_In. split; [exact Hin |].
    unfold isActive. destruct (e_deactivated e) as [[|]|]; [contradiction | |]; reflexivity.
Qed.

(** X18: for an hour of the day from 0 to 23 the clock shows an hour
    from 1 to 12, with "AM" before noon and "PM" from noon on; the
    hour shown and the half of the day determine the hour of the day,
    and 12 is shown exactly at midnight and at noon.  The day name is
    one of the seven names exactly when [getDay] is from 0 to 6. *)
Theorem clock_twelve_hour :
  forall now : DateFields,
    (0 <= getHours now <= 23 ->
     exists h12 : Z,
       1 <= h12 <= 12
       /\ currentTime (updateDateTime now)
          = string_of_Z h12 ++ ":" ++ padStart0 2 (string_of_Z (getMinutes now))
            ++ ":" ++ padStart0 2 (string_of_Z (getSeconds now))
            ++ " " ++ (if getHours now <? 12 then "AM" else "PM")
       /\ getHours now = h12 mod 12 + (if getHours now <? 12 then 0 else 12)
       /\ (h12 = 12 <-> getHours now = 0 \/ getHours now = 12))
    /\ (0 <= getDay now <= 6 ->
        exists d, currentDay (updateDateTime now) = Some d /\ In d days)
    /\ (getDay now < 0 \/ 6 < getDay now -> currentDay (updateDateTime now) = None).
Proof.
  intros now. split; [| split].
  - intros Hh. unfold updateDateTime. cbn [currentTime].
    rewrite !Z.rem_mod_nonneg by lia.
    exists (if getHours now mod 12 =? 0 then 12 else getHours now mod 12).
    pose proof (Z.mod_pos_bound (getHours now) 12 ltac:(lia)) as Hm.
    assert (Hdm : getHours now = 12 * (getHours now / 12) + getHours now mod 12)
      by (apply Z.div_mod; lia).
    destruct (Z.eqb_spec (getHours now mod 12) 0) as [H0 | Hn0].
    + split; [lia | split; [| split]].
      * destruct (Z.leb_spec 12 (getHours now)), (Z.ltb_spec (getHours now) 12);
          try lia; reflexivity.
      * destruct (Z.ltb_spec (getHours now) 12); change (12 mod 12) with 0; lia.
      * split; [intros _; lia | reflexivity].
    + split; [lia | split; [| split]].
      * destruct (Z.leb_spec 12 (getHours now)), (Z.ltb_spec (getHours now) 12);
          try lia; reflexivity.
      * rewrite Z.mod_mod by lia.
        destruct (Z.ltb_spec (getHours now) 12); lia.
      * split; [intros H12; lia | intros [H | H]; rewrite H in Hn0; now elim Hn0].
  - intros Hd. unfold updateDateTime. cbn [currentDay]. unfold at_index.
    destruct (Z.ltb_spec (getDay now) 0); [lia |].
    assert (Hn : (Z.to_nat (getDay now) < length days)%nat) by (simpl; lia).
    destruct (nth_error days (Z.to_nat (getDay now))) as [d|] eqn:Hnth.
    + exists d. split; [reflexivity | eapply nth_error_In; eassumption].
    + apply nth_error_None in Hnth. lia.
  - intros Hd. unfold updateDateTime. cbn [currentDay]. unfold at_index.
    destruct (Z.ltb_spec (getDay now) 0); [reflexivity |].
    apply nth_error_None. simpl. lia.
Qed.


Lemma or_string_not_empty o d : d <> "" -> or_string o d <> "".
Proof.
  intros Hd. unfold or_string. destruct o as [s|]; [| exact Hd].
  destruct (String.eqb_spec s ""); assumption.
Qed.


Lemma maxPointsStep_nonneg m acc :
  (0 <= fst acc)%Q -> (0 <= fst (fold_left maxPointsStep m acc))%Q.
Proof.
  revert acc. induction m as [|[k q] m IH]; intros [a b] Ha; [exact Ha |].
  simpl fold_left. apply IH. unfold maxPointsStep.
  destruct (Qltb a q) eqn:Hlt; [| exact Ha].
  apply Qltb_true in Hlt. simpl in *. lra.
Qed.

Lemma loadDepartments_noList result :
  noList result -> loadDepartments result = [].
Proof.
  intros [-> | (r & -> & H)]; [reflexivity |]. unfold loadDepartments.
  destruct H as [H | [H | H]]; rewrite H; try reflexivity; now destruct (ok r).
Qed.

Lemma loadAllRankedEmployees_noList result :
  noList result -> loadAllRankedEmployees result = [].
Proof.
  intros [-> | (r & -> & H)]; [reflexivity |]. unfold loadAllRankedEmployees.
  destruct H as [H | [H | H]]; rewrite H; try reflexivity; now destruct (ok r).
Qed.

(** X20: the best department is never shown as an empty name and its
    points are never negative; when the request for the ranks or the
    request for the departments delivers no list, the dashboard shows
    "N/A" with 0 points. *)
Theorem best_department_display :
  forall (rankResult : HttpResult (ListPayload RankedEmployee))
         (deptResult : HttpResult (ListPayload Department)),
    let shown := bestOf (loadDepartments deptResult)
                        (loadAllRankedEmployees rankResult) in
    fst shown <> ""
    /\ 0 <= snd shown
    /\ (noList rankResult \/ noList deptResult -> shown = ("N/A", 0)).
Proof.
  intros rankResult deptResult shown. subst shown.
  set (ds := loadDepartments deptResult). set (es := loadAllRankedEmployees rankResult).
  assert (Hany : fst (bestOf ds es) <> "" /\ 0 <= snd (bestOf ds es)).
  { destruct es as [|e es'] eqn:Hes.
    { rewrite bestOf_empty by now left. split; [discriminate | simpl; lia]. }
    destruct ds as [|d ds'] eqn:Hds.
    { rewrite bestOf_empty by now right. split; [discriminate | simpl; lia]. }
    destruct (fold_left maxPointsStep (deptPoints (d :: ds') (e :: es')) (0%Q, ""))
      as [maxPoints bestDept] eqn:Hfold.
    rewrite (bestOf_nonempty _ _ maxPoints bestDept) by (discriminate || exact Hfold).
    split; [cbn [fst]; now apply or_string_not_empty |].
    cbn [snd]. apply Qround_nonneg.
    pose proof (maxPointsStep_nonneg (deptPoints (d :: ds') (e :: es')) (0%Q, "")
                  ltac:(simpl; lra)) as H.
    now rewrite Hfold in H. }
  split; [apply Hany | split; [apply Hany |]].
  intros [Hno | Hno]; apply bestOf_empty.
  - left. now apply loadAllRankedEmployees_noList.
  - right. now apply loadDepartments_noList.
Qed.

End DashboardFigures.


(** Three employees, the second one deactivated. *)
Lemma active_employees_display_witness :
  let mk := fun i d =>
    {| AdminDashboard.e_id := i; AdminDashboard.e_firstName := "";
       AdminDashboard.e_lastName := ""; AdminDashboard.e_deactivated := d;
       AdminDashboard.e_monthlyAttendancePoint := None |} in
  let employees := [mk "a" None; mk "b" (Some true); mk "c" (Some false)] in
  In (mk "c" (Some false)) (AdminDashboard.getActiveEmployeesForDisplay employees)
  /\ AdminDashboard.e_deactivated (mk "c" (Some false)) <> Some true.
Proof.
  intros mk employees.
  destruct (active_employees_display employees) as (_ & _ & Hshown & Hall).
  assert (Hin : In (mk "c" (Some false))
                  (AdminDashboard.getActiveEmployeesForDisplay employees)).
  { apply Hall; [simpl; lia | right; right; now left | discriminate]. }
  split; [exact Hin | apply (Hshown _ Hin)].
Defined.

(** A Tuesday at 15:04:05. *)
Lemma clock_twelve_hour_witness :
  let now := {| AdminDashboard.getDay := 2; AdminDashboard.getMonth := 10;
                AdminDashboard.getDate := 3; AdminDashboard.getFullYear := 2026;
                AdminDashboard.getHours := 15; AdminDashboard.getMinutes := 4;
                AdminDashboard.getSeconds := 5 |} in
  (exists h12 : Z,
      1 <= h12 <= 12
      /\ AdminDashboard.currentTime (AdminDashboard.updateDateTime now)
         = JS.string_of_Z h12 ++ ":04:05 PM"
      /\ 15 = h12 mod 12 + 12)
  /\ exists d, AdminDashboard.currentDay (AdminDashboard.updateDateTime now) = Some d
               /\ In d AdminDashboard.days.
Proof.
  intros now. split.
  - destruct (proj1 (clock_twelve_hour now)) as (h12 & Hr & Ht & Hh & _);
      [simpl; lia |].
    exists h12. split; [exact Hr | split; [exact Ht | exact Hh]].
  - apply (proj1 (proj2 (clock_twelve_hour now))). simpl. lia.
Defined.


(** A failed request for the ranks beside a delivered department list. *)
Lemma best_department_display_witness :
  Spec.bestOf
    (AdminDashboard.loadDepartments
       (AdminDashboard.HttpNext
          {| AdminDashboard.ok := true;
             AdminDashboard.data :=
               Some (AdminDashboard.PlainArray [Spec.mkDept "Sales"]) |}))
    (AdminDashboard.loadAllRankedEmployees AdminDashboard.HttpError)
  = ("N/A", 0).
Proof.
  apply (proj2 (proj2 (best_department_display AdminDashboard.HttpError _))).
  left. now left.
Defined.

(* ===================================================================== *)
(** * The ranking page: what a load leaves alone *)
(* ===================================================================== *)

Section RankingFrame.
Import JS Spec Ranking.

(** X21: a load of the ranking page that does not deliver data (a
    failed request, a response that is not ok, a response without
    data) changes no array and keeps both references of the component;
    the loading flag is cleared, and the error message is set exactly
    for a failed request. *)
Theorem loadEmployeeRanking_failure_frame :
  forall (result : HttpResult) (c : Component) (h : heap),
    match result with
    | HttpError => True
    | HttpNext response => ok response = false \/ data response = None
    end ->
    exists c',
      loadEmployeeRanking result c h = Some (c', h)
      /\ employees c' = employees c
      /\ topThreeEmployees c' = topThreeEmployees c
      /\ isLoading c' = false
      /\ (errorMessage c' <> "" <-> result = HttpError).
Proof.
  intros result c h Hfail. unfold loadEmployeeRanking.
  destruct result as [|[[|] [d|]]]; cbn [ok data] in *.
  - eexists. split; [reflexivity |]. cbn. repeat split; congruence.
  - destruct Hfail; discriminate.
  - eexists. split; [reflexivity |]. cbn. repeat split; congruence.
  - eexists. split; [reflexivity |]. cbn. repeat split; congruence.
  - eexists. split; [reflexivity |]. cbn. repeat split; congruence.
Qed.

(** X22: a load that delivers the array at [a] touches two arrays
    only: the delivered one and the new array of the top three, which
    was not allocated before.  Every other array keeps its contents.
    The top three are at most three, and the delivered array, as
    stored, starts with them. *)
Theorem loadEmployeeRanking_ok_frame :
  forall (c : Component) (h : heap) (a : loc) (l : list Employee),
    h !! a = Some l ->
    exists (c' : Component) (h' : heap) (top rest : list Employee),
      loadEmployeeRanking (okResponse a) c h = Some (c', h')
      /\ isLoading c' = false /\ errorMessage c' = ""
      /\ h !! topThreeEmployees c' = None
      /\ (forall b, b <> a -> b <> topThreeEmployees c' -> h' !! b = h !! b)
      /\ h' !! topThreeEmployees c' = Some top
      /\ length top = Nat.min 3 (length l)
      /\ h' !! employees c' = Some (top ++ rest)%list.
Proof.
  intros c h a l Hl.
  destruct (loadEmployeeRanking_ok c h a l Hl) as (Hrun & Hfresh & Ha).
  set (sorted := Array_sort byMonthlyRank l) in *.
  set (h1 := (<[a := sorted]> h : heap)) in *.
  destruct (Array_slice_prefix 3 sorted) as [Hfirst Happ].
  exists {| employees := a; topThreeEmployees := fresh (dom h1);
            isLoading := false; errorMessage := "" |},
         (<[fresh (dom h1) := Array_slice 0 3 sorted]> h1),
         (Array_slice 0 3 sorted), (skipn 3 sorted).
  cbn [employees topThreeEmployees isLoading errorMessage].
  split; [exact Hrun | split; [reflexivity | split; [reflexivity |]]].
  split; [| split; [| split; [| split]]].
  - assert (Hnone : h1 !! fresh (dom h1) = None)
      by (apply not_elem_of_dom, is_fresh).
    subst h1. now rewrite lookup_insert_ne in Hnone by congruence.
  - intros b Hba Hbt. subst h1. now rewrite !lookup_insert_ne by congruence.
  - apply lookup_insert_eq.
  - rewrite Hfirst, length_firstn. subst sorted.
    now rewrite (Permutation_length (Array_sort_perm monthlyRank l)).
  - rewrite Happ. exact Ha.
Qed.

(** X23: loading the same array a second time leaves it as the first
    load stored it; the second top three are a new array with the same
    contents, and the first top-three array is still there. *)
Theorem loadEmployeeRanking_reload :
  forall (c : Component) (h : heap) (a : loc) (l : list Employee),
    h !! a = Some l ->
    exists (c1 : Component) (h1 : heap) (c2 : Component) (h2 : heap),
      loadEmployeeRanking (okResponse a) c h = Some (c1, h1)
      /\ loadEmployeeRanking (okResponse a) c1 h1 = Some (c2, h2)
      /\ h2 !! employees c2 = h1 !! employees c1
      /\ topThreeEmployees c2 <> topThreeEmployees c1
      /\ h2 !! topThreeEmployees c2 = h1 !! topThreeEmployees c1
      /\ h2 !! topThreeEmployees c1 = h1 !! topThreeEmployees c1.
Proof.
  intros c h a l Hl.
  destruct (loadEmployeeRanking_ok c h a l Hl) as (Hrun1 & Hfresh1 & Ha1).
  set (sorted := Array_sort byMonthlyRank l) in *.
  set (g := (<[a := sorted]> h : heap)) in *.
  set (top1 := fresh (dom g)) in *.
  set (h1 := (<[top1 := Array_slice 0 3 sorted]> g : heap)) in *.
  set (c1 := {| employees := a; topThreeEmployees := top1;
                isLoading := false; errorMessage := "" |}) in *.
  destruct (loadEmployeeRanking_ok c1 h1 a sorted Ha1) as (Hrun2 & Hfresh2 & Ha2).
  assert (Hsame : Array_sort byMonthlyRank sorted = sorted).
  { apply (Array_sort_of_sorted monthlyRank), (Array_sort_sorted monthlyRank). }
  rewrite Hsame in Hrun2, Hfresh2, Ha2.
  set (g2 := (<[a := sorted]> h1 : heap)) in *.
  set (top2 := fresh (dom g2)) in *.
  assert (Htop1 : h1 !! top1 = Some (Array_slice 0 3 sorted))
    by apply lookup_insert_eq.
  assert (Hne : top2 <> top1).
  { apply (fresh_not_allocated top1 g2 (Array_slice 0 3 sorted)).
    subst g2. now rewrite lookup_insert_ne by congruence. }
  eexists c1, h1, _, _. split; [exact Hrun1 | split; [exact Hrun2 |]].
  subst c1. cbn [employees topThreeEmployees].
  split; [now rewrite Ha1, Ha2 | split; [exact Hne | split]].
  - rewrite Htop1. apply lookup_insert_eq.
  - subst g2. now rewrite !lookup_insert_ne by congruence.
Qed.


End RankingFrame.

(** A response that is not ok, and a failed request. *)
Lemma loadEmployeeRanking_failure_frame_witness :
  let c := {| Ranking.employees := 1%positive; Ranking.topThreeEmployees := 2%positive;
              Ranking.isLoading := true; Ranking.errorMessage := "" |} in
  let h : gmap Ranking.loc (list Ranking.Employee) :=
    {[ 1%positive := [Spec.ranked 2; Spec.ranked 1] ]} in
  exists c',
    Ranking.loadEmployeeRanking
      (Ranking.HttpNext {| Ranking.ok := false; Ranking.data := None |}) c h
    = Some (c', h)
    /\ Ranking.employees c' = 1%positive.
Proof.
  intros c h.
  destruct (loadEmployeeRanking_failure_frame
              (Ranking.HttpNext {| Ranking.ok := false; Ranking.data := None |}) c h)
    as (c' & Hrun & Hemp & _); [now left |].
  exists c'. split; [exact Hrun | exact Hemp].
Defined.

(** Two arrays in the store, one of them delivered. *)
Lemma loadEmployeeRanking_ok_frame_witness :
  let l := [Spec.ranked 2; Spec.ranked 1; Spec.ranked 3; Spec.ranked 4] in
  let other := [Spec.ranked 9; Spec.ranked 8] in
  let h : gmap Ranking.loc (list Ranking.Employee) :=
    <[ 2%positive := other ]> {[ 1%positive := l ]} in
  let c := {| Ranking.employees := 2%positive; Ranking.topThreeEmployees := 2%positive;
              Ranking.isLoading := true; Ranking.errorMessage := "" |} in
  exists c' h',
    Ranking.loadEmployeeRanking (Spec.okResponse 1%positive) c h = Some (c', h')
    /\ h' !! 2%positive = Some other.
Proof.
  intros l other h c.
  destruct (loadEmployeeRanking_ok_frame c h 1%positive l)
    as (c' & h' & top & rest & Hrun & _ & _ & Hnew & Hframe & _);
    [reflexivity |].
  exists c', h'. split; [exact Hrun |].
  rewrite Hframe; [reflexivity | discriminate |].
  intros Heq. rewrite <- Heq in Hnew. discriminate Hnew.
Defined.

(** Ranks 2, 1, 3 loaded twice. *)
Lemma loadEmployeeRanking_reload_witness :
  let l := [Spec.ranked 2; Spec.ranked 1; Spec.ranked 3] in
  let h : gmap Ranking.loc (list Ranking.Employee) := {[ 1%positive := l ]} in
  let c := {| Ranking.employees := 2%positive; Ranking.topThreeEmployees := 3%positive;
              Ranking.isLoading := true; Ranking.errorMessage := "" |} in
  exists c1 h1 c2 h2,
    Ranking.loadEmployeeRanking (Spec.okResponse 1%positive) c h = Some (c1, h1)
    /\ Ranking.loadEmployeeRanking (Spec.okResponse 1%positive) c1 h1 = Some (c2, h2)
    /\ h2 !! Ranking.employees c2 = h1 !! Ranking.employees c1.
Proof.
  intros l h c.
  destruct (loadEmployeeRanking_reload c h 1%positive l)
    as (c1 & h1 & c2 & h2 & Hrun1 & Hrun2 & Hsame & _); [reflexivity |].
  exists c1, h1, c2, h2. split; [exact Hrun1 | split; [exact Hrun2 | exact Hsame]].
Defined.


(* ===================================================================== *)
(** * The progress bar of a day *)
(* ===================================================================== *)

Section ProgressBar.
Import JS Spec Attendance.
Variable Date_parse : string -> option Z.

Lemma Qround_at_least z x : z <= Qround x <-> (inject_Z z - (1 # 2) <= x)%Q.
Proof.
  unfold Qround. split; intros H.
  - pose proof (Qfloor_le (x + (1 # 2))) as Hf.
    assert (Hz : (inject_Z z <= inject_Z (Qfloor (x + (1 # 2))))%Q)
      by now rewrite <- Zle_Qle.
    lra.
  - rewrite <- (Qfloor_Z z). apply Qfloor_resp_le. lra.
Qed.

Lemma percent_at_least k d :
  (inject_Z k - (1 # 2) <= inject_Z d / 288000)%Q <-> (2 * k - 1) * 144000 <= d.
Proof.
  rewrite Zle_Qle. unfold Z.sub. rewrite inject_Z_mult, inject_Z_plus, inject_Z_mult.
  change (inject_Z 2) with 2%Q. change (inject_Z (- (1))) with (- (1))%Q.
  change (inject_Z 144000) with 144000%Q.
  set (y := (inject_Z d / 288000)%Q).
  assert (Hy : (inject_Z d == y * 288000)%Q) by (subst y; field).
  rewrite Hy. split; lra.
Qed.

Lemma Qle_bool_capped k r :
  k <= 100 -> Qle_bool (inject_Z k) (Qmin (inject_Z r) 100) = (k <=? r).
Proof.
  intros Hk. destruct (Z.leb_spec k r) as [Hle | Hgt].
  - apply Qle_bool_iff, Q.min_glb; [now rewrite <- Zle_Qle |].
    change 100%Q with (inject_Z 100). now rewrite <- Zle_Qle.
  - apply not_true_is_false. intros Hb. apply Qle_bool_iff in Hb.
    assert (H : (inject_Z k <= inject_Z r)%Q)
      by (eapply Qle_trans; [exact Hb | apply Q.le_min_l]).
    rewrite <- Zle_Qle in H. lia.
Qed.

Lemma leb_iff a b c d : (a <= b <-> c <= d) -> (a <=? b) = (c <=? d).
Proof.
  intros H. destruct (Z.leb_spec a b), (Z.leb_spec c d); try reflexivity;
    exfalso; lia.
Qed.

(** X25: the progress bar of a day on the attendance page is green
    ("bg-success") from 7 hours 9 minutes 36 seconds on, yellow
    ("bg-warning") from 5 hours 33 minutes 36 seconds on, and red
    ("bg-danger") below that and on an invalid pair. *)
Theorem progress_bar_by_duration :
  forall checkIn checkOut : option string,
    (invalidPair Date_parse checkIn checkOut ->
     getProgressBarClass (getAttendancePercentage Date_parse checkIn checkOut)
     = "bg-danger")
    /\ (forall ci co start stop,
          checkIn = Some ci -> checkOut = Some co ->
          validPair Date_parse ci co start stop ->
          getProgressBarClass (getAttendancePercentage Date_parse checkIn checkOut)
          = if 25776000 <=? stop - start then "bg-success"
            else if 20016000 <=? stop - start then "bg-warning"
            else "bg-danger").
Proof.
  intros checkIn checkOut. split.
  - intros H. now rewrite (getAttendancePercentage_invalid Date_parse _ _ H).
  - intros ci co start stop -> -> Hv.
    rewrite (getAttendancePercentage_valid Date_parse _ _ _ _ Hv).
    unfold getProgressBarClass.
    set (x := ((inject_Z stop - inject_Z start) / (1000 * 60 * 60) / 8 * 100)%Q).
    assert (Hx : (x == inject_Z (stop - start) / 288000)%Q).
    { subst x. rewrite diffMs_Z. field. }
    change 90%Q with (inject_Z 90). change 70%Q with (inject_Z 70).
    rewrite !Qle_bool_capped by lia.
    assert (H90 : (90 <=? Qround x) = (25776000 <=? stop - start)).
    { apply leb_iff. rewrite Qround_at_least, Hx. exact (percent_at_least 90 _). }
    assert (H70 : (70 <=? Qround x) = (20016000 <=? stop - start)).
    { apply leb_iff. rewrite Qround_at_least, Hx. exact (percent_at_least 70 _). }
    now rewrite H90, H70.
Qed.

End ProgressBar.

(** Seven and a half hours are green, six hours are yellow. *)
Lemma progress_bar_by_duration_witness :
  Attendance.getProgressBarClass
    (Attendance.getAttendancePercentage JS.iso_parse
       (Some "2024-01-01T09:00:00Z") (Some "2024-01-01T16:30:00Z"))
  = "bg-success"
  /\ Attendance.getProgressBarClass
       (Attendance.getAttendancePercentage JS.iso_parse
          (Some "2024-01-01T09:00:00Z") (Some "2024-01-01T15:00:00Z"))
     = "bg-warning".
Proof.
  split.
  - apply (proj2 (progress_bar_by_duration JS.iso_parse _ _)
             "2024-01-01T09:00:00Z" "2024-01-01T16:30:00Z"
             1704099600000 1704126600000); try reflexivity.
    repeat split; try discriminate; try reflexivity.
  - apply (proj2 (progress_bar_by_duration JS.iso_parse _ _)
             "2024-01-01T09:00:00Z" "2024-01-01T15:00:00Z"
             1704099600000 1704121200000); try reflexivity.
    repeat split; try discriminate; try reflexivity.
Defined.

(* ===================================================================== *)
(** * The attendance page: loading and paging *)
(* ===================================================================== *)

Section AttendancePage.
Import JS Spec Attendance.

Lemma delivered_ok response d :
  delivered (HttpNext response) = Some d ->
  ok response = true /\ data response = Some d.
Proof.
  unfold delivered. destruct (ok response); [auto | discriminate].
Qed.

Lemma delivered_none response :
  delivered (HttpNext response) = None ->
  ok response = false \/ data response = None.
Proof.
  unfold delivered. destruct (ok response); [now right | now left].
Qed.

Lemma loadAttendanceData_frame page result p :
  currentPage (fst (loadAttendanceData page result p)) = page
  /\ selectedPeriod (component (fst (loadAttendanceData page result p)))
     = selectedPeriod (component p)
  /\ (delivered result = None ->
      component (fst (loadAttendanceData page result p)) = component p).
Proof.
  destruct result as [status | response]; unfold loadAttendanceData, delivered.
  - repeat match goal with
           | |- context [if ?b then _ else _] => destruct b
           end; cbn; repeat split.
  - destruct (ok response), (data response); cbn; repeat split; discriminate.
Qed.

Ltac split_outcome :=
  repeat match goal with
         | |- _ /\ _ => split
         | |- _ <-> _ => split
         end.

Ltac settle_outcome :=
  first
    [ reflexivity
    | now left
    | now right
    | intros; discriminate
    | intros _; split;
      [reflexivity
      | eexists; split;
        [reflexivity | first [discriminate | now apply or_string_not_empty]]]
    | intros [= H]; contradiction
    | intros ? [= <-]; repeat split ].

(** X26: whatever the request delivers, [loadAttendanceData] ends with
    the loading flag cleared, on the requested page and with the period
    unchanged.  When no page is delivered, the records, the pagination
    and the statistics stay as they were and an error message that is
    not empty is set.  When a page is delivered, the error is cleared
    and the component holds the statistics of the records of that
    page.  The authentication service is told to log out exactly for
    an error of status 401. *)
Theorem loadAttendanceData_outcomes :
  forall (page : Z) (result : HttpResult) (p : Page),
    let p' := fst (loadAttendanceData page result p) in
    let calls := snd (loadAttendanceData page result p) in
    loading p' = false
    /\ currentPage p' = page
    /\ selectedPeriod (component p') = selectedPeriod (component p)
    /\ (delivered result = None ->
        component p' = component p
        /\ exists message, error p' = Some message /\ message <> "")
    /\ (forall d, delivered result = Some d ->
          error p' = None /\ calls = []
          /\ component p'
             = afterCalculateStats (selectedPeriod (component p)) (Some d) (pageData d))
    /\ (calls = [Logout] <-> result = HttpError (Some 401))
    /\ (calls = [] \/ calls = [Logout]).
Proof.
  intros page result p p' calls. subst p' calls.
  destruct result as [[s|] | response].
  - unfold loadAttendanceData, statusIs.
    destruct (Z.eqb_spec s 401) as [-> | H401];
      [| destruct (Z.eqb_spec s 403) as [-> | H403];
         [| destruct (Z.eqb_spec s 0) as [-> | H0]]];
      cbn; split_outcome; settle_outcome.
  - cbn. split_outcome; settle_outcome.
  - destruct (delivered (HttpNext response)) as [d|] eqn:Hd.
    + destruct (delivered_ok _ _ Hd) as [Hok Hdata].
      unfold loadAttendanceData. rewrite Hok, Hdata. cbn.
      split_outcome; settle_outcome.
    + unfold loadAttendanceData.
      destruct (delivered_none _ Hd) as [Hok | Hdata].
      * rewrite Hok. cbn. split_outcome; settle_outcome.
      * rewrite Hdata. destruct (ok response); cbn; split_outcome; settle_outcome.
Qed.

(** X27: [loadPage] loads nothing and changes nothing for a page below
    1, without pagination data, or beyond the last page, and loads the
    page otherwise.  [changePeriod] asks for page 1 and switches the
    period even when the request fails, in which case the records and
    the statistics are still those of the former period.
    [refreshData] stays on the current page. *)
Theorem attendance_page_navigation :
  forall (result : HttpResult) (p : Page),
    (forall page,
        page < 1 \/ paginationData (component p) = None
        \/ (exists pd, paginationData (component p) = Some pd /\ totalPages pd < page) ->
        loadPage page result p = (p, []))
    /\ (forall page pd,
          paginationData (component p) = Some pd -> 1 <= page <= totalPages pd ->
          loadPage page result p = loadAttendanceData page result p)
    /\ (forall period,
          let p' := fst (changePeriod period result p) in
          currentPage p' = 1
          /\ selectedPeriod (component p') = period
          /\ (delivered result = None ->
              attendanceRecords (component p') = attendanceRecords (component p)
              /\ attendanceStats (component p') = attendanceStats (component p)))
    /\ currentPage (fst (refreshData result p)) = currentPage p.
Proof.
  intros result p. split; [| split; [| split]].
  - intros page Hout. unfold loadPage.
    destruct Hout as [Hlow | [Hnone | (pd & Hpd & Hhigh)]].
    + destruct (Z.leb_spec 1 page); [lia | reflexivity].
    + rewrite Hnone. now rewrite andb_false_r.
    + rewrite Hpd. destruct (Z.leb_spec page (totalPages pd)); [lia |].
      now rewrite andb_false_r.
  - intros page pd Hpd Hin. unfold loadPage. rewrite Hpd.
    destruct (Z.leb_spec 1 page); [| lia].
    destruct (Z.leb_spec page (totalPages pd)); [reflexivity | lia].
  - intros period p'. subst p'. unfold changePeriod.
    match goal with
    | |- context [loadAttendanceData 1 result ?q] =>
        destruct (loadAttendanceData_frame 1 result q) as (Hpage & Hperiod & Hkeep)
    end.
    split; [exact Hpage | split; [exact Hperiod |]].
    intros Hnone. rewrite (Hkeep Hnone). now split.
  - unfold refreshData. apply (loadAttendanceData_frame (currentPage p) result p).
Qed.

End AttendancePage.

(** A page with one record, and a response that is not ok. *)
Lemma loadAttendanceData_outcomes_witness :
  let records := [Spec.mkRecord (Some "Present") "u1"] in
  let p := {| Attendance.component := Spec.afterCalculateStats Attendance.Day None records;
              Attendance.currentPage := 1; Attendance.loading := true;
              Attendance.error := None |} in
  let result := Attendance.HttpNext
                  {| Attendance.ok := false; Attendance.data := None;
                     Attendance.response_error := None |} in
  Attendance.component (fst (Attendance.loadAttendanceData 2 result p))
  = Attendance.component p
  /\ exists message,
      Attendance.error (fst (Attendance.loadAttendanceData 2 result p)) = Some message
      /\ message <> "".
Proof.
  intros records p result.
  destruct (loadAttendanceData_outcomes 2 result p) as (_ & _ & _ & Hnone & _).
  apply Hnone. reflexivity.
Defined.

(** Page 3 of two pages, and a change of period that fails. *)
Lemma attendance_page_navigation_witness :
  let records := [Spec.mkRecord (Some "Present") "u1"] in
  let pd := {| Attendance.page := 1; Attendance.count := 1;
               Attendance.totalPages := 2; Attendance.totalItems := Some 2;
               Attendance.pageData := records |} in
  let p := {| Attendance.component :=
                Spec.afterCalculateStats Attendance.Day (Some pd) records;
              Attendance.currentPage := 1; Attendance.loading := false;
              Attendance.error := None |} in
  let result := Attendance.HttpError (Some 500) in
  Attendance.loadPage 3 result p = (p, [])
  /\ Attendance.attendanceStats
       (Attendance.component (fst (Attendance.changePeriod Attendance.Week result p)))
     = Attendance.attendanceStats (Attendance.component p).
Proof.
  intros records pd p result.
  destruct (attendance_page_navigation result p) as (Hout & _ & Hperiod & _).
  split.
  - apply Hout. right; right. exists pd. split; [reflexivity | simpl; lia].
  - apply (Hperiod Attendance.Week). reflexivity.
Defined.

(* ===================================================================== *)
(** * Rank labels are distinct *)
(* ===================================================================== *)

Section RankLabelsDistinct.
Import JS Ranking.

(** The decimal rendering of an integer reads back as that integer. *)
Lemma string_of_Z_parse z :
  option_map Z.of_int (NilZero.int_of_string (string_of_Z z)) = Some z.
Proof.
  unfold string_of_Z. pose proof (DecimalZ.of_to z) as Hz.
  destruct (Z.to_int z) as [u | u] eqn:Hd.
  - destruct u;
      try (rewrite NilZero.isi by discriminate; cbn [option_map]; now rewrite Hz).
    rewrite NilZero.isi_posnil. cbn [option_map]. now rewrite <- Hz.
  - destruct u;
      try (rewrite NilZero.isi by discriminate; cbn [option_map]; now rewrite Hz).
    rewrite NilZero.isi_negnil. cbn [option_map]. now rewrite <- Hz.
Qed.

Lemma string_of_Z_inj a b : string_of_Z a = string_of_Z b -> a = b.
Proof.
  intros H. pose proof (string_of_Z_parse a) as Ha.
  rewrite H, string_of_Z_parse in Ha. congruence.
Qed.

Lemma length_append (s t : string) :
  String.length (s ++ t) = (String.length s + String.length t)%nat.
Proof. induction s as [|c s IH]; simpl; [reflexivity | now rewrite IH]. Qed.

Lemma append_inj_l (s1 s2 t : string) : s1 ++ t = s2 ++ t -> s1 = s2.
Proof.
  revert s2. induction s1 as [|c s1 IH]; intros [|c' s2] H.
  - reflexivity.
  - apply (f_equal String.length) in H. rewrite !length_append in H. simpl in H. lia.
  - apply (f_equal String.length) in H. rewrite !length_append in H. simpl in H. lia.
  - change (String c (s1 ++ t) = String c' (s2 ++ t)) in H.
    injection H as -> H. f_equal. now apply IH.
Qed.

Lemma th_label_not_special (s x : string) :
  In x ["1st"; "2nd"; "3rd"] -> s ++ "th" <> x.
Proof.
  intros Hx H. apply (f_equal String.length) in H as Hlen.
  rewrite length_append in Hlen.
  destruct s as [|c [|c' s]].
  - destruct Hx as [<- | [<- | [<- | []]]]; discriminate.
  - destruct Hx as [<- | [<- | [<- | []]]]; inversion H.
  - destruct Hx as [<- | [<- | [<- | []]]]; simpl in Hlen; lia.
Qed.

Lemma getRankLabel_cases r :
  (In (getRankLabel r) ["1st"; "2nd"; "3rd"]
   /\ In r [1; 2; 3]
   /\ forall r', getRankLabel r' = getRankLabel r -> In r' [1; 2; 3] -> r' = r)
  \/ (getRankLabel r = string_of_Z r ++ "th" /\ ~ In r [1; 2; 3]).
Proof.
  unfold getRankLabel at 1 2 4.
  destruct (Z.eqb_spec r 1) as [-> | H1];
    [| destruct (Z.eqb_spec r 2) as [-> | H2];
       [| destruct (Z.eqb_spec r 3) as [-> | H3]]].
  - left. split; [simpl; tauto | split; [simpl; tauto |]].
    intros r' H [<- | [<- | [<- | []]]]; [reflexivity | discriminate H | discriminate H].
  - left. split; [simpl; tauto | split; [simpl; tauto |]].
    intros r' H [<- | [<- | [<- | []]]]; [discriminate H | reflexivity | discriminate H].
  - left. split; [simpl; tauto | split; [simpl; tauto |]].
    intros r' H [<- | [<- | [<- | []]]]; [discriminate H | discriminate H | reflexivity].
  - right. split; [reflexivity |]. simpl. intros [H | [H | [H | []]]]; congruence.
Qed.

(** X28: two different ranks never get the same label. *)
Theorem getRankLabel_distinct :
  forall r r' : Z, r <> r' -> getRankLabel r <> getRankLabel r'.
Proof.
  intros r r' Hne H. apply Hne. clear Hne.
  destruct (getRankLabel_cases r) as [(Hin & Hr & Hsame) | (Hlab & Hout)],
           (getRankLabel_cases r') as [(Hin' & Hr' & Hsame') | (Hlab' & Hout')].
  - apply Hsame'; [exact H | exact Hr].
  - exfalso. rewrite H in Hin. rewrite Hlab' in Hin.
    exact (th_label_not_special _ _ Hin eq_refl).
  - exfalso. rewrite <- H in Hin'. rewrite Hlab in Hin'.
    exact (th_label_not_special _ _ Hin' eq_refl).
  - rewrite Hlab, Hlab' in H. apply string_of_Z_inj. now apply append_inj_l in H.
Qed.

End RankLabelsDistinct.

(** Ranks 1 and 21: "1st" and "21th". *)
Lemma getRankLabel_distinct_witness :
  Ranking.getRankLabel 1 <> Ranking.getRankLabel 21.
Proof. apply getRankLabel_distinct. lia. Defined.
